(** * Spaced repetition scheduler: the memory model and the review session

    A shallow embedding of [Spaced_rep_project/spaced_repetition.py].

    Modelling conventions.
    - Python [float]s are read as real numbers ([R]): rounding error,
      overflow and NaN are outside the model.  Every exception that the
      arithmetic of the source can raise over the reals (division by zero,
      a power that leaves the reals) is kept, in the [result] type below.
      The module [Binary64] reads [next_interval] once more with the range
      of the floats, for the statements on what it returns at all.
    - Python [int]s are [Z].
    - A calendar date is the number of its day ([Z]).  The source stores
      dates as ISO strings ([date.isoformat()]); these are fixed width and
      zero padded, so that equality and [<=] on the strings are equality
      and [<=] on the days.
    - A reading of the clock ([datetime.now(timezone.utc)]) is an input:
      the number of microseconds since the epoch, in [Z]. *)

From Stdlib Require Import Reals Lra Lia ZArith List String Ascii Bool.
From Stdlib Require Import QArith.QArith_base.
From Stdlib Require Import Sorting.Permutation Sorting.Sorted.
Import ListNotations.

Local Open Scope Z_scope.
Local Open Scope R_scope.

(** ** Exceptions and the error monad *)

(** The exceptions the modelled code can raise.  [DomainError] stands for
    what Python raises once a power has left the reals: the [ValueError] of
    [math.pow] on a negative base, or the [TypeError] of [round] and
    [math.exp] applied to the complex number that [**] returns there. *)
Inductive py_exn : Type :=
| AttributeError
| KeyError
| ZeroDivisionError
| DomainError
| JSONDecodeError
| UnicodeDecodeError
| RecursionError.

Inductive result (A : Type) : Type :=
| Ok (a : A)
| Raise (e : py_exn).

Arguments Ok {A} a.
Arguments Raise {A} e.

Definition bind {A B : Type} (m : result A) (k : A -> result B) : result B :=
  match m with
  | Ok a => k a
  | Raise e => Raise e
  end.

Notation "x <- m ;; k" := (bind m (fun x => k))
  (at level 61, m at next level, right associativity).

(** ** Python arithmetic on floats, over the reals *)

(** [a / b] on floats: raises [ZeroDivisionError] when [b] is zero. *)
Definition py_div (a b : R) : result R :=
  if Req_dec_T b 0 then Raise ZeroDivisionError else Ok (a / b).

(** [a ** b] on floats, for the exponents of this program (-0.4 and -2.5,
    which are negative and no integers).  A zero base with a negative
    exponent is a [ZeroDivisionError]; a negative base leaves the reals. *)
Definition py_pow (a b : R) : result R :=
  if Rlt_dec 0 a then Ok (Rpower a b)
  else if Req_dec_T a 0 then
         (if Rlt_dec b 0 then Raise ZeroDivisionError
          else if Req_dec_T b 0 then Ok 1 else Ok 0)
       else Raise DomainError.

(** [math.pow(a, b)]: as [**], but every failure is a [ValueError]. *)
Definition math_pow (a b : R) : result R :=
  if Rlt_dec 0 a then Ok (Rpower a b)
  else if Req_dec_T a 0 then
         (if Rlt_dec b 0 then Raise DomainError
          else if Req_dec_T b 0 then Ok 1 else Ok 0)
       else Raise DomainError.

(** [round(x)] of a float: the nearest integer, ties going to the even one. *)
Definition py_round (x : R) : Z :=
  let f := Int_part x in
  let d := x - IZR f in
  if Rlt_dec d (1 / 2) then f
  else if Rlt_dec (1 / 2) d then (f + 1)%Z
       else if Z.even f then f else (f + 1)%Z.

(** ** The memory model: class [FSRS] *)

Definition interval_cap : Z := 365.

Module FSRS.

(** The instance [fsrs = FSRS()]: the default weights. *)
Definition w : list R :=
  [2.5; 2.6; 2.3; 2.8; 3.0; 0.8; 0.7; 0.5; 0.1; 0.1;
   0.1; 1.0; 0.5; 0.5; 1.0; 0.6; 1.2; 0.5; 0.7; 1.3].

(** [self.w[i]], for the indices the code uses (all below 20). *)
Definition w_ (i : nat) : R := nth i w 0.

Definition maximum_interval : Z := interval_cap.
Definition DECAY : R := -0.4.
Definition FACTOR : R := Rpower 0.9 (1 / DECAY) - 1.

Definition forgetting_curve (elapsed_days : Z) (stability : R) : result R :=
  q <- py_div (FACTOR * IZR elapsed_days) stability ;;
  py_pow (1 + q) DECAY.

(** [stability / self.FACTOR] cannot raise: [FACTOR] is a positive constant
    (lemma [FACTOR_pos] below). *)
Definition next_interval (stability retention_factor : R) : result Z :=
  p <- py_pow retention_factor (1 / DECAY) ;;
  let new_interval := stability / FACTOR * (p - 1) in
  Ok (Z.min (Z.max (py_round new_interval) 1) maximum_interval).

Definition mean_reversion (init current : R) : R :=
  w_ 7 * init + (1 - w_ 7) * current.

Definition next_difficulty (difficulty : R) (rating : Z) : R :=
  let next_d := difficulty - w_ 6 * IZR (rating - 3) in
  Rmin (Rmax (mean_reversion 5.0 next_d) 1) 10.

Definition next_recall_stability
           (difficulty stability retrievability : R) (rating : Z) : result R :=
  p <- math_pow stability (- w_ 9) ;;
  Ok (stability
      * (1 + exp (w_ 8) * (11 - difficulty) * p
             * (exp ((1 - retrievability) * w_ 10) - 1))
      * (if (rating =? 2)%Z then w_ 15 else 1)).

End FSRS.

(** ** The data model *)

(** The keys of [difficulty_order].  [add_question] stores no other value in
    ["problem_type"]; the constructor [TwoP] is the key ["2P"]. *)
Inductive category : Type :=
| Arrays | Hashing | TwoP | Stack | Sorting | BinarySearch | SlidingWindow
| LinkedList | Greedy | Heap | Intervals | Trees | Math | Graphs
| Backtracking | Tries | DP.

Definition difficulty_order (c : category) : Z :=
  match c with
  | Arrays => 1 | Hashing => 2 | TwoP => 3 | Stack => 4 | Sorting => 5
  | BinarySearch => 6 | SlidingWindow => 7 | LinkedList => 8 | Greedy => 9
  | Heap => 10 | Intervals => 11 | Trees => 12 | Math => 13 | Graphs => 14
  | Backtracking => 15 | Tries => 16 | DP => 17
  end.

Definition date : Type := Z.

(** An entry [{"date": ..., "rating": ...}] of ["ratings"]. *)
Record rating_entry : Type := mk_rating { rating_date : date; rating_value : Z }.

(** An entry [{"date": ..., "time_taken": ...}] of ["solving_time"]. *)
Record time_entry : Type := mk_time { time_date : date; time_taken : R }.

(** The dictionary kept for one question; [None] is Python's [None]. *)
Record details : Type := mk_details {
  link : string;
  problem_type : category;
  company_tags : list string;
  last_reviewed : date;
  next_review : date;
  interval : Z;
  stability : R;
  difficulty : R;
  retention_factor : R;
  current_retention_rate : option R;
  feynman : string;
  solving_time : list time_entry;
  average_time : option R;
  ratings : list rating_entry
}.

(** The global [questions]: a [dict], which iterates in insertion order. *)
Definition store : Type := list (string * details).

(** [questions[question]], read. *)
Fixpoint store_get (questions : store) (question : string) : result details :=
  match questions with
  | [] => Raise KeyError
  | (k, d) :: rest =>
      if String.eqb k question then Ok d else store_get rest question
  end.

(** A write through [questions[question]]: the entry keeps its place.  The
    source reads [questions[question]] before every such write, so that a
    missing key has raised [KeyError] by then. *)
Fixpoint store_set (questions : store) (question : string) (d : details) : store :=
  match questions with
  | [] => []
  | (k, d0) :: rest =>
      if String.eqb k question then (k, d) :: rest
      else (k, d0) :: store_set rest question d
  end.

(** The global [config] after lines 16-17 of the module.  The key
    ["COMPANY_PREP_TARGET"] is there only when the file [config] has it. *)
Record config : Type := mk_config {
  COMPANY_PREP_MODE : bool;
  COMPANY_PREP_TARGET : option string;
  COMPANY_PREP_RETENTION_FACTOR : R
}.

(** [config['COMPANY_PREP_TARGET']] *)
Definition config_prep_target (cfg : config) : result string :=
  match COMPANY_PREP_TARGET cfg with
  | Some t => Ok t
  | None => Raise KeyError
  end.

(** [config.NAME], attribute access.  [config] is a [dict]: its entries are
    read by subscription, and as an attribute [NAME] (which is no method of
    [dict]) does not exist, whatever the entries are. *)
Definition config_getattr (cfg : config) (name : string) : result R :=
  Raise AttributeError.

(** [x in tags], on a list of strings. *)
Definition str_in (x : string) (tags : list string) : bool :=
  existsb (String.eqb x) tags.

(** ** Dates *)

Definition microseconds_per_hour : Z := 3600 * 1000000.
Definition microseconds_per_day : Z := 24 * microseconds_per_hour.

(** [(now + timedelta(hours=-4) + timedelta(days=days)).date()] *)
Definition local_date_after (now days : Z) : date :=
  ((now + (-4) * microseconds_per_hour + days * microseconds_per_day)
     / microseconds_per_day)%Z.

(** [(now + timedelta(hours=-4)).date()] *)
Definition local_date (now : Z) : date :=
  ((now + (-4) * microseconds_per_hour) / microseconds_per_day)%Z.

(** ** The review session *)

(** The condition of line 217:
    [config['COMPANY_PREP_MODE'] and
     config['COMPANY_PREP_TARGET'] not in details.get('company_tags', [])] *)
Definition prep_condition (cfg : config) (d : details) : result bool :=
  if COMPANY_PREP_MODE cfg then
    target <- config_prep_target cfg ;;
    Ok (negb (str_in target (company_tags d)))
  else Ok false.

(** [details.update({"interval": ..., "stability": ..., "difficulty": ...,
    "next_review": ...})] *)
Definition set_metric_fields
           (d : details) (new_interval : Z) (new_stability new_difficulty : R)
           (next_review : date) : details :=
  {| link := link d; problem_type := problem_type d;
     company_tags := company_tags d; last_reviewed := last_reviewed d;
     next_review := next_review; interval := new_interval;
     stability := new_stability; difficulty := new_difficulty;
     retention_factor := retention_factor d;
     current_retention_rate := current_retention_rate d;
     feynman := feynman d; solving_time := solving_time d;
     average_time := average_time d; ratings := ratings d |}.

(** [update_question_metrics(question, rating)], with the clock reading of
    its call to [datetime.now] as [now].  The [print]s are left out. *)
Definition update_question_metrics
           (cfg : config) (now : Z) (question : string) (rating : Z)
           (questions : store) : result store :=
  d <- store_get questions question ;;
  let last_interval := interval d in
  let last_stability := stability d in
  let last_difficulty := difficulty d in
  scaled <- prep_condition cfg d ;;
  retention_factor_ <-
    (if scaled : bool then
       factor <- config_getattr cfg "COMPANY_PREP_RETENTION_FACTOR" ;;
       Ok (retention_factor d * factor)
     else Ok (retention_factor d)) ;;
  retrievability <- FSRS.forgetting_curve last_interval last_stability ;;
  new_stability <-
    FSRS.next_recall_stability last_difficulty last_stability retrievability rating ;;
  let new_difficulty := FSRS.next_difficulty last_difficulty rating in
  base_interval <- FSRS.next_interval new_stability retention_factor_ ;;
  let base_interval := if (rating =? 1)%Z then 1%Z else base_interval in
  let new_stability :=
    if (rating =? 1)%Z then Rmax (new_stability * 0.6) 0.1 else new_stability in
  let new_interval := Z.min base_interval interval_cap in
  let next_review := local_date_after now new_interval in
  Ok (store_set questions question
        (set_metric_fields d new_interval new_stability new_difficulty next_review)).

(** [calculate_average_time(solving_times)] *)
Definition calculate_average_time (solving_times : list time_entry) : result (option R) :=
  match solving_times with
  | [] => Ok None
  | _ :: _ =>
      avg <- py_div (fold_left Rplus (map time_taken solving_times) 0)
                    (IZR (Z.of_nat (List.length solving_times))) ;;
      Ok (Some avg)
  end.

(** The generator summed on line 192:
    [5 if r["rating"] >= 4 else r["rating"]], over the entries whose rating
    is truthy (not zero). *)
Definition retention_credit (r : rating_entry) : Z :=
  if (4 <=? rating_value r)%Z then 5%Z else rating_value r.

Definition retention_credits (rs : list rating_entry) : Z :=
  fold_left Z.add
            (map retention_credit
                 (filter (fun r => negb (rating_value r =? 0)%Z) rs)) 0%Z.

(** What the user and the clock give to one call of
    [review_single_question]. *)
Record review_input : Type := mk_input {
  start_problem : string;   (* the answer to "(yes/no)", stripped and lowered *)
  start_time : Z;           (* the first reading of the clock *)
  rating_in : Z;            (* what [get_valid_input] returns *)
  rated_time : Z;           (* the clock, once the rating is in *)
  update_time : Z;          (* the clock, in [update_question_metrics] *)
  explanation : string
}.

(** ['n' in s] *)
Fixpoint has_n (s : string) : bool :=
  match s with
  | EmptyString => false
  | String c rest => Ascii.eqb c "n"%char || has_n rest
  end.

Definition set_rating_fields (d : details) (rs : list rating_entry) (rate : R) : details :=
  {| link := link d; problem_type := problem_type d;
     company_tags := company_tags d; last_reviewed := last_reviewed d;
     next_review := next_review d; interval := interval d;
     stability := stability d; difficulty := difficulty d;
     retention_factor := retention_factor d;
     current_retention_rate := Some rate;
     feynman := feynman d; solving_time := solving_time d;
     average_time := average_time d; ratings := rs |}.

Definition set_time_fields (d : details) (ts : list time_entry) (avg : option R) : details :=
  {| link := link d; problem_type := problem_type d;
     company_tags := company_tags d; last_reviewed := last_reviewed d;
     next_review := next_review d; interval := interval d;
     stability := stability d; difficulty := difficulty d;
     retention_factor := retention_factor d;
     current_retention_rate := current_retention_rate d;
     feynman := feynman d; solving_time := ts;
     average_time := avg; ratings := ratings d |}.

Definition set_closing_fields (d : details) (text : string) (today : date) : details :=
  {| link := link d; problem_type := problem_type d;
     company_tags := company_tags d; last_reviewed := today;
     next_review := next_review d; interval := interval d;
     stability := stability d; difficulty := difficulty d;
     retention_factor := retention_factor d;
     current_retention_rate := current_retention_rate d;
     feynman := text; solving_time := solving_time d;
     average_time := average_time d; ratings := ratings d |}.

(** [review_single_question(question, details, today)].  The argument
    [details] of the source is only printed, and is left out; so are the
    messages about the retention goal. *)
Definition review_single_question
           (cfg : config) (inp : review_input) (question : string) (today : date)
           (questions : store) : result (bool * store) :=
  if has_n (start_problem inp) then Ok (false, questions)
  else
    let rating := rating_in inp in
    d <- store_get questions question ;;
    let rs := ratings d ++ [mk_rating today rating] in
    rate <- py_div (IZR (retention_credits rs))
                   (IZR (Z.of_nat (List.length rs) * 5)) ;;
    let questions := store_set questions question (set_rating_fields d rs rate) in
    let minutes := IZR (rated_time inp - start_time inp) / 1000000 / 60 in
    d <- store_get questions question ;;
    let ts := solving_time d ++ [mk_time today minutes] in
    avg <- calculate_average_time ts ;;
    let questions := store_set questions question (set_time_fields d ts avg) in
    questions <- update_question_metrics cfg (update_time inp) question rating questions ;;
    d <- store_get questions question ;;
    let questions :=
      store_set questions question (set_closing_fields d (explanation inp) today) in
    Ok (true, questions).

(** [sorted(l, key=key)]: a stable sort, here by insertion. *)
Fixpoint insert_by {A : Type} (key : A -> Z) (x : A) (l : list A) : list A :=
  match l with
  | [] => [x]
  | y :: rest =>
      if (key x <=? key y)%Z then x :: y :: rest
      else y :: insert_by key x rest
  end.

Fixpoint sorted {A : Type} (key : A -> Z) (l : list A) : list A :=
  match l with
  | [] => []
  | x :: rest => insert_by key x (sorted key rest)
  end.

(** The order of two elements by their keys, and the elements of one key. *)
Definition key_le {A : Type} (key : A -> Z) (a b : A) : Prop :=
  (key a <= key b)%Z.

Definition has_key {A : Type} (key : A -> Z) (k : Z) (a : A) : bool :=
  (key a =? k)%Z.

(** The three lists of [review_questions(company)]. *)
Definition selected (company : option string) (today : date) (d : details) : bool :=
  (match company with
   | None => true
   | Some c => str_in c (company_tags d)
   end)
  && ((next_review d <=? today)%Z || (last_reviewed d =? today)%Z).

Definition filtered_questions
           (company : option string) (today : date) (questions : store)
  : list (string * details) :=
  filter (fun q => selected company today (snd q)) questions.

Definition sort_key (q : string * details) : Z :=
  difficulty_order (problem_type (snd q)).

Definition sorted_questions
           (company : option string) (today : date) (questions : store)
  : list (string * details) :=
  sorted sort_key (filtered_questions company today questions).

Definition unreviewed_questions
           (company : option string) (today : date) (questions : store)
  : list (string * details) :=
  filter (fun q => negb (last_reviewed (snd q) =? today)%Z)
         (sorted_questions company today questions).

(** The loop over [unreviewed_questions]; [inputs] gives, for each question,
    what the user and the clock answer during its review. *)
Fixpoint review_each
         (cfg : config) (inputs : string -> review_input) (today : date)
         (todo : list (string * details)) (questions : store) : result store :=
  match todo with
  | [] => Ok questions
  | (question, _) :: rest =>
      r <- review_single_question cfg (inputs question) question today questions ;;
      review_each cfg inputs today rest (snd r)
  end.

(** [review_questions(company)] on the loaded [questions], with the reading
    [now] of the clock: the listing it prints and the collection it leaves
    ([None] for the listing when there is nothing left to review today). *)
Definition review_questions
           (cfg : config) (now : Z) (inputs : string -> review_input)
           (company : option string) (questions : store)
  : result (option (list (string * details)) * store) :=
  let today := local_date now in
  match unreviewed_questions company today questions with
  | [] => Ok (None, questions)
  | todo =>
      questions' <- review_each cfg inputs today todo questions ;;
      Ok (Some (sorted_questions company today questions), questions')
  end.

(** ** Loading the collection *)

(** A JSON document, as [json.load] returns it (the literals [NaN] and
    [Infinity], which [json.load] also reads, are left out). *)
#[warnings="-register-all"]
Inductive json : Type :=
| JNull
| JBool (b : bool)
| JInt (n : Z)
| JFloat (q : Q)
| JString (s : string)
| JArray (items : list json)
| JObject (entries : list (string * json)).

(** [bool(v)] *)
Definition truthy (v : json) : bool :=
  match v with
  | JNull => false
  | JBool b => b
  | JInt n => negb (n =? 0)%Z
  | JFloat q => negb (Qeq_bool q 0)
  | JString s => negb (String.eqb s "")
  | JArray items => match items with [] => false | _ => true end
  | JObject entries => match entries with [] => false | _ => true end
  end.

(** The file [DATA_FILE]: absent, or present, and then what [json.load] does
    on its contents: it returns a document or raises. *)
Inductive data_file : Type :=
| Absent
| Present (loaded : result json).

(** [load_questions()]: the value it leaves in [questions]. *)
Definition load_questions (f : data_file) : result json :=
  match f with
  | Absent => Ok (JObject [])
  | Present (Ok v) => if truthy v then Ok v else Ok (JObject [])
  | Present (Raise JSONDecodeError) => Ok (JObject [])
  | Present (Raise e) => Raise e
  end.

(** ** Adding a question *)

(** The keys of [difficulty_order] as the source writes them, and in its
    order. *)
Definition category_name (c : category) : string :=
  match c with
  | Arrays => "Arrays" | Hashing => "Hashing" | TwoP => "2P" | Stack => "Stack"
  | Sorting => "Sorting" | BinarySearch => "Binary Search"
  | SlidingWindow => "Sliding Window" | LinkedList => "Linked List"
  | Greedy => "Greedy" | Heap => "Heap" | Intervals => "Intervals"
  | Trees => "Trees" | Math => "Math" | Graphs => "Graphs"
  | Backtracking => "Backtracking" | Tries => "Tries" | DP => "DP"
  end.

Definition categories : list category :=
  [Arrays; Hashing; TwoP; Stack; Sorting; BinarySearch; SlidingWindow;
   LinkedList; Greedy; Heap; Intervals; Trees; Math; Graphs; Backtracking;
   Tries; DP].

(** [s.lower()] on ASCII text: the letters A-Z go to a-z.  (Python also
    lowers letters outside ASCII; the statements about [lower] take ASCII
    input.) *)
Definition lower_char (c : ascii) : ascii :=
  let n := nat_of_ascii c in
  if ((65 <=? n)%nat && (n <=? 90)%nat)%bool then ascii_of_nat (n + 32) else c.

Fixpoint lower (s : string) : string :=
  match s with
  | EmptyString => EmptyString
  | String c rest => String (lower_char c) (lower rest)
  end.

Fixpoint is_ascii (s : string) : bool :=
  match s with
  | EmptyString => true
  | String c rest => (nat_of_ascii c <? 128)%nat && is_ascii rest
  end.

(** [difficulty_order_lower = {k.lower(): k for k in difficulty_order.keys()}] *)
Definition difficulty_order_lower : list (string * category) :=
  map (fun c => (lower (category_name c), c)) categories.

(** [key in table], and [table[key]] *)
Fixpoint lookup_lower (table : list (string * category)) (key : string)
  : option category :=
  match table with
  | [] => None
  | (k, c) :: rest => if String.eqb k key then Some c else lookup_lower rest key
  end.

(** [questions[question] = d]: an entry that exists is replaced where it
    is, a new one goes to the end. *)
Fixpoint store_put (questions : store) (question : string) (d : details) : store :=
  match questions with
  | [] => [(question, d)]
  | (k, d0) :: rest =>
      if String.eqb k question then (k, d) :: rest
      else (k, d0) :: store_put rest question d
  end.

(** The answer to the prompt for the retention: nothing, a text that
    [float] reads as [r], or a text on which [float] raises. *)
Inductive retention_answer : Type :=
| Blank
| Number (r : R)
| NotANumber.

(** How [add_question] ends: with its message on the problem type, with the
    [ValueError] of [float], or with the collection it saves. *)
Inductive added : Type :=
| InvalidType
| ValueError
| Added (questions : store).

(** [add_question(fsrs, question, link, problem_type)] on the loaded
    [questions].  [request_retention] is the global of that name;
    [now_last] and [now_next] are the two readings of the clock, for
    ["last_reviewed"] and ["next_review"]; [answer] is what the user gives
    for the retention and [company_tags] the list built on line 127. *)
Definition add_question
           (request_retention : R) (now_last now_next : Z)
           (question link problem_type : string)
           (answer : retention_answer) (company_tags : list string)
           (questions : store) : added :=
  match lookup_lower difficulty_order_lower (lower problem_type) with
  | None => InvalidType
  | Some c =>
      match answer with
      | NotANumber => ValueError
      | _ =>
          Added
            (store_put questions question
               {| link := link;
                  problem_type := c;
                  company_tags := company_tags;
                  last_reviewed := local_date now_last;
                  next_review := local_date_after now_next 1;
                  interval := 1%Z;
                  stability := FSRS.w_ 0;
                  difficulty := 5.0;
                  retention_factor :=
                    match answer with
                    | Number r => r
                    | _ => request_retention
                    end;
                  current_retention_rate := None;
                  feynman := "";
                  solving_time := [];
                  average_time := None;
                  ratings := [] |})
      end
  end.

(** ** Listing all questions *)

(** Equality of two keys of [difficulty_order] (their ordinals differ). *)
Definition category_eqb (a b : category) : bool :=
  (difficulty_order a =? difficulty_order b)%Z.

(** One turn of the loop of [list_all_questions]: the question joins the
    list of its problem type, which is created, last, when it is new. *)
Fixpoint group_add
         (groups : list (category * list (string * details)))
         (q : string * details) : list (category * list (string * details)) :=
  match groups with
  | [] => [(problem_type (snd q), [q])]
  | (c, qs) :: rest =>
      if category_eqb c (problem_type (snd q)) then (c, qs ++ [q]) :: rest
      else (c, qs) :: group_add rest q
  end.

Definition grouped_questions (questions : store)
  : list (category * list (string * details)) :=
  fold_left group_add questions [].

(** [grouped_questions[problem_type]], for a key that is there. *)
Fixpoint group_of
         (groups : list (category * list (string * details))) (c : category)
  : list (string * details) :=
  match groups with
  | [] => []
  | (c0, qs) :: rest => if category_eqb c0 c then qs else group_of rest c
  end.

Definition sorted_problem_types (questions : store) : list category :=
  sorted difficulty_order (map fst (grouped_questions questions)).

(** [list_all_questions()] on the loaded [questions]: what it prints, the
    problem types in turn, each with its questions ([None] for the message
    that there are no questions). *)
Definition list_all_questions (questions : store)
  : option (list (category * list (string * details))) :=
  match questions with
  | [] => None
  | _ :: _ =>
      Some (map (fun c => (c, group_of (grouped_questions questions) c))
                (sorted_problem_types questions))
  end.

(** ** Statistics *)

(** The retention rates that are truthy: neither [None] nor zero. *)
Fixpoint truthy_rates (questions : store) : list R :=
  match questions with
  | [] => []
  | (_, d) :: rest =>
      match current_retention_rate d with
      | Some x => if Req_dec_T x 0 then truthy_rates rest
                  else x :: truthy_rates rest
      | None => truthy_rates rest
      end
  end.

(** [view_statistics()] on the loaded [questions]: its
    [total_retention_rate]. *)
Definition view_statistics (questions : store) : result R :=
  py_div (fold_left Rplus (truthy_rates questions) 0)
         (IZR (Z.of_nat (List.length (truthy_rates questions)))).

(** ** The company-prep mode *)

(** [toggle_company_prep_mode()], with the answer (stripped) to its prompt:
    the [config] it leaves. *)
Definition toggle_company_prep_mode (cfg : config) (answer : string) : config :=
  if negb (COMPANY_PREP_MODE cfg) then
    {| COMPANY_PREP_MODE := true;
       COMPANY_PREP_TARGET := Some answer;
       COMPANY_PREP_RETENTION_FACTOR := COMPANY_PREP_RETENTION_FACTOR cfg |}
  else
    {| COMPANY_PREP_MODE := false;
       COMPANY_PREP_TARGET := Some ""%string;
       COMPANY_PREP_RETENTION_FACTOR := COMPANY_PREP_RETENTION_FACTOR cfg |}.

(** ** The interval in the range of the floats *)

(** [FSRS.next_interval] above computes over the reals.  Here the same
    lines are read with the range of Python's floats (IEEE binary64): a
    result of [/] or [*] beyond the largest float is an infinity, [**]
    raises [OverflowError] there, and [round] raises on an infinity and on
    NaN.  A finite float is still read as the real it stands for: the
    rounding to 53 bits is left out. *)
Module Binary64.

(** The largest finite float, [sys.float_info.max]. *)
Definition max_float : R := (2 - / 2 ^ 52) * 2 ^ 1023.

Inductive float : Type :=
| Finite (x : R)
| Infinity (negative : bool)
| NaN.

Inductive exn : Type :=
| OverflowError
| ValueError
| ZeroDivisionError
| TypeError.

Inductive outcome (A : Type) : Type :=
| Return (a : A)
| Raises (e : exn).

Arguments Return {A} a.
Arguments Raises {A} e.

(** The float for the exact result [x] of [/] or [*] on finite floats. *)
Definition to_float (x : R) : float :=
  if Rlt_dec max_float x then Infinity false
  else if Rlt_dec x (- max_float) then Infinity true
  else Finite x.

(** [a * b], where [b] is finite. *)
Definition mul (a : float) (b : R) : float :=
  match a with
  | Finite x => to_float (x * b)
  | Infinity negative =>
      if Rlt_dec 0 b then Infinity negative
      else if Rlt_dec b 0 then Infinity (negb negative)
      else NaN
  | NaN => NaN
  end.

(** [a ** b] for the exponent -2.5 of [next_interval]: [OverflowError]
    beyond the range, [ZeroDivisionError] on a zero base.  On a negative
    base Python returns a complex number, which [round] then refuses with
    [TypeError]. *)
Definition float_pow (a b : R) : outcome R :=
  if Rlt_dec 0 a then
    if Rlt_dec max_float (Rpower a b) then Raises OverflowError
    else Return (Rpower a b)
  else if Req_dec_T a 0 then Raises ZeroDivisionError
       else Raises TypeError.

(** [round(x)] *)
Definition round (x : float) : outcome Z :=
  match x with
  | Finite r => Return (py_round r)
  | Infinity _ => Raises OverflowError
  | NaN => Raises ValueError
  end.

(** [FSRS.next_interval], for a finite [stability].  [p - 1] cannot leave
    the range, [p] being at most [max_float]. *)
Definition next_interval (stability retention_factor : R) : outcome Z :=
  match float_pow retention_factor (1 / FSRS.DECAY) with
  | Raises e => Raises e
  | Return p =>
      let new_interval := mul (to_float (stability / FSRS.FACTOR)) (p - 1) in
      match round new_interval with
      | Raises e => Raises e
      | Return n => Return (Z.min (Z.max n 1) FSRS.maximum_interval)
      end
  end.

End Binary64.

(** ** Names for the statements *)

(** The value that [next_interval] rounds, and the clamp it applies. *)
Definition raw_interval (stability retention_factor : R) : R :=
  stability / FSRS.FACTOR * (Rpower retention_factor (1 / FSRS.DECAY) - 1).

Definition clamp_interval (n : Z) : Z :=
  Z.min (Z.max n 1) FSRS.maximum_interval.

(** The item as [review_single_question] leaves it, from the values
    computed on the way: the retention rate, the average time, the stability
    [s] that [next_recall_stability] returns and the interval [n] that
    [next_interval] returns. *)
Definition reviewed
           (inp : review_input) (today : date) (d : details)
           (rate : R) (avg : option R) (s : R) (n : Z) : details :=
  let rating := rating_in inp in
  let rs := ratings d ++ [mk_rating today rating] in
  let minutes := IZR (rated_time inp - start_time inp) / 1000000 / 60 in
  let ts := solving_time d ++ [mk_time today minutes] in
  let new_interval := Z.min (if (rating =? 1)%Z then 1%Z else n) interval_cap in
  set_closing_fields
    (set_metric_fields
       (set_time_fields (set_rating_fields d rs rate) ts avg)
       new_interval
       (if (rating =? 1)%Z then Rmax (s * 0.6) 0.1 else s)
       (FSRS.next_difficulty (difficulty d) rating)
       (local_date_after (update_time inp) new_interval))
    (explanation inp) today.


(** The retention rate in the words of the specification: the sum, over the
    whole history, of 5 for a rating of 4 or more and of the rating itself
    otherwise, divided by 5 times the number of records. *)
Definition full_credit (rating : Z) : Z :=
  if (rating >=? 4)%Z then 5%Z else rating.

Definition observed_retention_rate (history : list rating_entry) : R :=
  IZR (fold_right Z.add 0%Z (map (fun r => full_credit (rating_value r)) history))
  / (5 * IZR (Z.of_nat (List.length history))).

(** ** Sample data *)

Definition two_sum : details :=
  {| link := "https://leetcode.com/problems/two-sum";
     problem_type := Arrays;
     company_tags := ["Amazon"%string];
     last_reviewed := 20000%Z;
     next_review := 20001%Z;
     interval := 1%Z;
     stability := 2.5;
     difficulty := 5.0;
     retention_factor := 0.85;
     current_retention_rate := None;
     feynman := "";
     solving_time := [];
     average_time := None;
     ratings := [] |}.

Definition one_question : store := [("Two Sum"%string, two_sum)].

Definition prep_off : config :=
  {| COMPANY_PREP_MODE := false;
     COMPANY_PREP_TARGET := Some ""%string;
     COMPANY_PREP_RETENTION_FACTOR := 1.2 |}.

Definition prep_google : config :=
  {| COMPANY_PREP_MODE := true;
     COMPANY_PREP_TARGET := Some "Google"%string;
     COMPANY_PREP_RETENTION_FACTOR := 1.2 |}.

(** A question of the category [c], reviewed on [last] and due on [next]. *)
Definition question_of (c : category) (last next : date) : details :=
  {| link := ""; problem_type := c; company_tags := [];
     last_reviewed := last; next_review := next; interval := (next - last)%Z;
     stability := 2.5; difficulty := 5.0; retention_factor := 0.85;
     current_retention_rate := None; feynman := ""; solving_time := [];
     average_time := None; ratings := [] |}.

(** Five questions, in the order they were added. *)
Definition five_questions : store :=
  [("Coin Change"%string, question_of DP 20000 20001);
   ("Two Sum"%string, question_of Arrays 19999 20001);
   ("LRU Cache"%string, question_of LinkedList 20000 20005);
   ("3Sum"%string, question_of Arrays 20001 20003);
   ("Max Subarray"%string, question_of Arrays 20000 20001)]%Z.

(** The clock at [h]:[m] local time (UTC minus 4 hours) of the day [day]. *)
Definition clock_at (day h m : Z) : Z :=
  (day * microseconds_per_day + (h + 4) * microseconds_per_hour
   + m * 60 * 1000000)%Z.

(** A review on day 20001, from 10:00 to 10:20. *)
Definition morning_review (rating : Z) : review_input :=
  {| start_problem := "yes";
     start_time := clock_at 20001 10 0;
     rating_in := rating;
     rated_time := clock_at 20001 10 20;
     update_time := clock_at 20001 10 20;
     explanation := "hash map of complements" |}.


(** An item that respects the data model. *)
Definition valid_item (d : details) : Prop :=
  0 < stability d
  /\ 1 <= difficulty d <= 10
  /\ (1 <= interval d <= 365)%Z
  /\ 0 < retention_factor d.

(** The mean of a list of reals. *)
Definition mean (l : list R) : R :=
  fold_right Rplus 0 l / IZR (Z.of_nat (List.length l)).

(** The questions of the problem type [c]. *)
Definition of_type (c : category) (q : string * details) : bool :=
  category_eqb c (problem_type (snd q)).

(** The questions of a listing, in the order they are printed. *)
Definition printed (listing : list (category * list (string * details)))
  : list (string * details) :=
  List.concat (map snd listing).

(** ** Facts about the arithmetic *)

Section Arithmetic.

Lemma Rpower_neg_antitone (a b c : R) :
  c < 0 -> 0 < a -> a <= b -> Rpower b c <= Rpower a c.
Proof.
  intros Hc Ha [Hab | ->]; [| apply Rle_refl].
  unfold Rpower. left. apply exp_increasing.
  assert (ln a < ln b) by (apply ln_increasing; assumption).
  nra.
Qed.

Lemma Rpower_neg_above_one (a c : R) :
  c < 0 -> 0 < a < 1 -> 1 < Rpower a c.
Proof.
  intros Hc [Ha Ha1]. unfold Rpower.
  rewrite <- exp_0. apply exp_increasing.
  assert (ln a < ln 1) by (apply ln_increasing; assumption).
  rewrite ln_1 in *. nra.
Qed.

Lemma Rpower_neg_below_one (a c : R) :
  c < 0 -> 1 <= a -> Rpower a c <= 1.
Proof.
  intros Hc Ha.
  destruct (Rpower_neg_antitone 1 a c Hc Rlt_0_1 Ha) as [Hlt | Heq];
    unfold Rpower in *; rewrite ln_1, Rmult_0_r, exp_0 in *; lra.
Qed.

Lemma inv_DECAY_neg : 1 / FSRS.DECAY < 0.
Proof. unfold FSRS.DECAY. lra. Qed.

Lemma FACTOR_pos : 0 < FSRS.FACTOR.
Proof.
  unfold FSRS.FACTOR.
  assert (1 < Rpower 0.9 (1 / FSRS.DECAY)).
  { apply Rpower_neg_above_one; [apply inv_DECAY_neg | lra]. }
  lra.
Qed.

(** [round] stays within one half of its argument... *)
Lemma py_round_near (x : R) :
  x - 1 / 2 <= IZR (py_round x) <= x + 1 / 2.
Proof.
  unfold py_round. cbv zeta.
  destruct (base_Int_part x) as [Hlo Hhi].
  destruct (Rlt_dec (x - IZR (Int_part x)) (1 / 2)) as [Hd | Hd]; [lra |].
  destruct (Rlt_dec (1 / 2) (x - IZR (Int_part x))) as [Hu | Hu];
    [rewrite plus_IZR; lra |].
  destruct (Z.even (Int_part x)); rewrite ?plus_IZR; lra.
Qed.



End Arithmetic.

(** ** The memory model: intervals *)

Section NextInterval.

Lemma next_interval_defined (stability retention_factor : R) :
  0 < retention_factor ->
  FSRS.next_interval stability retention_factor
  = Ok (clamp_interval (py_round (raw_interval stability retention_factor))).
Proof.
  intros Hr. unfold FSRS.next_interval, py_pow.
  destruct (Rlt_dec 0 retention_factor) as [_ | Hn]; [reflexivity | contradiction].
Qed.

Lemma clamp_interval_range (n : Z) : (1 <= clamp_interval n <= 365)%Z.
Proof.
  unfold clamp_interval, FSRS.maximum_interval, interval_cap. lia.
Qed.





(** [round] on a tie goes to the even neighbour, as Python's does. *)
Lemma py_round_tie (z : Z) :
  py_round (IZR z + 1 / 2) = if Z.even z then z else (z + 1)%Z.
Proof.
  unfold py_round. cbv zeta.
  replace (Int_part (IZR z + 1 / 2)) with z by (apply Int_part_spec; lra).
  destruct (Rlt_dec (IZR z + 1 / 2 - IZR z) (1 / 2)) as [H | _]; [lra |].
  destruct (Rlt_dec (1 / 2) (IZR z + 1 / 2 - IZR z)) as [H | _]; [lra |].
  reflexivity.
Qed.

Example py_round_half_even :
  py_round 2.5 = 2%Z /\ py_round 3.5 = 4%Z /\ py_round (-0.5) = 0%Z.
Proof.
  replace 2.5 with (IZR 2 + 1 / 2) by lra.
  replace 3.5 with (IZR 3 + 1 / 2) by lra.
  replace (-0.5) with (IZR (-1) + 1 / 2) by lra.
  rewrite !py_round_tie. repeat split.
Qed.

(** At the retention 0.9 that defines [FACTOR] the interval is the
    stability, rounded: two days for the initial stability [w[0]]. *)
Example next_interval_initial : FSRS.next_interval 2.5 0.9 = Ok 2%Z.
Proof.
  rewrite next_interval_defined by lra.
  replace (raw_interval 2.5 0.9) with (IZR 2 + 1 / 2).
  - rewrite py_round_tie. reflexivity.
  - unfold raw_interval.
    change (Rpower 0.9 (1 / FSRS.DECAY) - 1) with FSRS.FACTOR.
    pose proof FACTOR_pos as Hpos.
    unfold Rdiv at 2. rewrite Rmult_assoc, Rinv_l by lra. lra.
Qed.

End NextInterval.

(** ** The memory model: difficulty *)

Section NextDifficulty.

Lemma w_6 : FSRS.w_ 6 = 0.7.
Proof. reflexivity. Qed.

Lemma w_7 : FSRS.w_ 7 = 0.5.
Proof. reflexivity. Qed.

Lemma next_difficulty_clamped (difficulty : R) (rating : Z) :
  1 <= FSRS.next_difficulty difficulty rating <= 10.
Proof.
  unfold FSRS.next_difficulty. cbv zeta. split.
  - apply Rmin_glb; [apply Rmax_r | lra].
  - apply Rmin_r.
Qed.

Lemma rating_bounds (rating : Z) :
  (1 <= rating <= 5)%Z -> 1 <= IZR rating <= 5.
Proof. intros [H1 H5]. split; apply IZR_le; assumption. Qed.

End NextDifficulty.

(** C6.  For a difficulty in [1, 10] and a rating in 1..5, [next_difficulty]
    (the shift by [w[6] * (rating - 3)], then the mean reversion towards 5.0
    with weight [w[7]], then the clamp) returns a value in [1, 10]; on these
    inputs the clamp changes nothing. *)
Theorem next_difficulty_in_range (difficulty : R) (rating : Z) :
  1 <= difficulty <= 10 ->
  (1 <= rating <= 5)%Z ->
  1 <= FSRS.next_difficulty difficulty rating <= 10
  /\ FSRS.next_difficulty difficulty rating
     = FSRS.mean_reversion 5.0 (difficulty - FSRS.w_ 6 * IZR (rating - 3)).
Proof.
  intros Hd Hr. split; [apply next_difficulty_clamped |].
  apply rating_bounds in Hr.
  unfold FSRS.next_difficulty, FSRS.mean_reversion. cbv zeta.
  rewrite w_6, w_7, minus_IZR.
  rewrite Rmax_left by lra. rewrite Rmin_left by lra. reflexivity.
Qed.

Lemma next_difficulty_in_range_witness :
  1 <= FSRS.next_difficulty 5.0 3 <= 10
  /\ FSRS.next_difficulty 5.0 3
     = FSRS.mean_reversion 5.0 (5.0 - FSRS.w_ 6 * IZR (3 - 3)).
Proof. apply next_difficulty_in_range; [lra | lia]. Defined.



(** ** The interval in the range of the floats *)

Section FloatRange.










End FloatRange.







(** ** The store and the error monad *)

Section Store.

Lemma bind_ok_inv {A B : Type} (m : result A) (k : A -> result B) (b : B) :
  bind m k = Ok b -> exists a : A, m = Ok a /\ k a = Ok b.
Proof.
  destruct m as [a | e]; simpl; intros H; [| discriminate].
  exists a. split; [reflexivity | assumption].
Qed.

Lemma store_get_set (questions : store) (question : string) (d0 d : details) :
  store_get questions question = Ok d0 ->
  store_get (store_set questions question d) question = Ok d.
Proof.
  induction questions as [| [k e] rest IH]; simpl; [discriminate |].
  destruct (String.eqb k question) eqn:Hk; simpl; rewrite Hk.
  - reflexivity.
  - assumption.
Qed.

Lemma store_set_keys (questions : store) (question : string) (d : details) :
  map fst (store_set questions question d) = map fst questions.
Proof.
  induction questions as [| [k e] rest IH]; simpl; [reflexivity |].
  destruct (String.eqb k question); simpl; [| rewrite IH]; reflexivity.
Qed.

End Store.

(** ** The update of the metrics *)

Section UpdateMetrics.

Variables (cfg : config) (now : Z) (question : string) (rating : Z).

Lemma forgetting_curve_defined (elapsed_days : Z) (stability : R) :
  0 < stability -> (0 <= elapsed_days)%Z ->
  exists r : R, FSRS.forgetting_curve elapsed_days stability = Ok r.
Proof.
  intros Hs He. unfold FSRS.forgetting_curve, py_div.
  destruct (Req_dec_T stability 0) as [H0 | _]; [lra |]. simpl.
  unfold py_pow.
  destruct (Rlt_dec 0 (1 + FSRS.FACTOR * IZR elapsed_days / stability))
    as [_ | Hneg]; [eexists; reflexivity |].
  exfalso. apply Hneg.
  assert (0 <= IZR elapsed_days) by (apply IZR_le; assumption).
  assert (0 <= FSRS.FACTOR * IZR elapsed_days / stability).
  { apply Rmult_le_pos; [apply Rmult_le_pos |]; try assumption.
    - left. apply FACTOR_pos.
    - left. apply Rinv_0_lt_compat. assumption. }
  lra.
Qed.

Lemma next_recall_stability_defined (difficulty stability retrievability : R) :
  0 < stability ->
  exists s : R,
    FSRS.next_recall_stability difficulty stability retrievability rating = Ok s.
Proof.
  intros Hs. unfold FSRS.next_recall_stability, math_pow.
  destruct (Rlt_dec 0 stability) as [_ | Hn]; [| contradiction].
  eexists. reflexivity.
Qed.

(** What a completed call has done. *)
Lemma update_question_metrics_inv (questions questions' : store) (d : details) :
  store_get questions question = Ok d ->
  update_question_metrics cfg now question rating questions = Ok questions' ->
  prep_condition cfg d = Ok false
  /\ exists (r s : R) (n : Z),
      FSRS.forgetting_curve (interval d) (stability d) = Ok r
      /\ FSRS.next_recall_stability (difficulty d) (stability d) r rating = Ok s
      /\ FSRS.next_interval s (retention_factor d) = Ok n
      /\ questions' =
         store_set questions question
           (set_metric_fields d
              (Z.min (if (rating =? 1)%Z then 1%Z else n) interval_cap)
              (if (rating =? 1)%Z then Rmax (s * 0.6) 0.1 else s)
              (FSRS.next_difficulty (difficulty d) rating)
              (local_date_after now
                 (Z.min (if (rating =? 1)%Z then 1%Z else n) interval_cap))).
Proof.
  intros Hget Hupd. unfold update_question_metrics in Hupd.
  rewrite Hget in Hupd. simpl in Hupd.
  apply bind_ok_inv in Hupd as [scaled [Hcond Hupd]].
  destruct scaled; [discriminate Hupd |]. simpl in Hupd.
  apply bind_ok_inv in Hupd as [r [Hr Hupd]].
  apply bind_ok_inv in Hupd as [s [Hs Hupd]].
  apply bind_ok_inv in Hupd as [n [Hn Hupd]].
  injection Hupd as <-.
  split; [assumption |].
  exists r, s, n. repeat split; assumption.
Qed.

(** A call completes on an item that respects the data model, unless the
    retention target is to be scaled. *)
Lemma update_question_metrics_defined (questions : store) (d : details) :
  store_get questions question = Ok d ->
  prep_condition cfg d = Ok false ->
  0 < stability d -> (0 <= interval d)%Z -> 0 < retention_factor d ->
  exists questions' : store,
    update_question_metrics cfg now question rating questions = Ok questions'.
Proof.
  intros Hget Hcond Hs Hi Hr. unfold update_question_metrics.
  rewrite Hget. simpl. rewrite Hcond. simpl.
  destruct (forgetting_curve_defined _ _ Hs Hi) as [r ->]. simpl.
  destruct (next_recall_stability_defined (difficulty d) _ r Hs) as [s ->]. simpl.
  rewrite next_interval_defined by assumption. simpl.
  eexists. reflexivity.
Qed.

End UpdateMetrics.

(** ** One review *)

Section ReviewSingleQuestion.

Variables (cfg : config) (inp : review_input) (question : string) (today : date).

Lemma length_snoc_nonzero {A : Type} (l : list A) (x : A) (k : Z) :
  (0 < k)%Z -> IZR (Z.of_nat (List.length (l ++ [x])) * k) <> 0.
Proof.
  intros Hk. rewrite length_app. simpl.
  apply not_0_IZR. nia.
Qed.

Lemma py_div_defined (a b : R) : b <> 0 -> py_div a b = Ok (a / b).
Proof.
  intros Hb. unfold py_div.
  destruct (Req_dec_T b 0); [contradiction | reflexivity].
Qed.

Lemma calculate_average_time_snoc (ts : list time_entry) (t : time_entry) :
  exists avg : R, calculate_average_time (ts ++ [t]) = Ok (Some avg).
Proof.
  unfold calculate_average_time.
  destruct (ts ++ [t]) as [| t0 rest] eqn:Happ.
  - destruct ts; discriminate Happ.
  - rewrite <- Happ. rewrite py_div_defined.
    + eexists. reflexivity.
    + rewrite <- (Z.mul_1_r (Z.of_nat _)). apply length_snoc_nonzero. lia.
Qed.


(** A review that the user accepts completes on an item that respects the
    data model, unless the retention target is to be scaled. *)
Lemma review_single_question_defined (questions : store) (d : details) :
  store_get questions question = Ok d ->
  has_n (start_problem inp) = false ->
  prep_condition cfg d = Ok false ->
  0 < stability d -> (0 <= interval d)%Z -> 0 < retention_factor d ->
  exists questions' : store,
    review_single_question cfg inp question today questions = Ok (true, questions').
Proof.
  intros Hget Hyes Hcond Hs Hi Hr. unfold review_single_question.
  rewrite Hyes, Hget. simpl.
  rewrite py_div_defined by (apply length_snoc_nonzero; lia). simpl.
  rewrite (store_get_set _ _ d) by assumption. simpl.
  destruct (calculate_average_time_snoc
              (solving_time d)
              (mk_time today (IZR (rated_time inp - start_time inp) / 1000000 / 60)))
    as [avg ->].
  simpl.
  match goal with
  | |- context [update_question_metrics _ _ _ _
                  (store_set (store_set _ _ ?a) _ ?b)] =>
      set (d2 := b); set (d1 := a)
  end.
  assert (store_get (store_set (store_set questions question d1) question d2)
                    question = Ok d2) as Hget2
      by (eapply store_get_set, store_get_set, Hget).
  destruct (update_question_metrics_defined
              cfg (update_time inp) question (rating_in inp) _ d2
              Hget2 Hcond Hs Hi Hr) as [questions3 Hupd].
  rewrite Hupd. simpl.
  destruct (update_question_metrics_inv _ _ _ _ _ _ _ Hget2 Hupd)
    as [_ [r [s [n [_ [_ [_ Heq]]]]]]].
  subst questions3.
  erewrite store_get_set by exact Hget2.
  simpl. eexists. reflexivity.
Qed.

End ReviewSingleQuestion.

(** ** Dates *)

Section Dates.

Lemma local_date_after_days (now days : Z) :
  local_date_after now days = (local_date now + days)%Z.
Proof.
  unfold local_date_after, local_date.
  apply Z.div_add. unfold microseconds_per_day, microseconds_per_hour. lia.
Qed.


End Dates.

(** C1.  With the company-prep mode active and an item whose tags do not
    hold the target, the update does not reach [next_interval]: reading the
    factor, written [config.COMPANY_PREP_RETENTION_FACTOR], raises
    [AttributeError], and with it the whole review. *)
Theorem prep_scaling_raises
        (cfg : config) (inp : review_input) (question target : string)
        (today : date) (questions : store) (d : details) :
  store_get questions question = Ok d ->
  COMPANY_PREP_MODE cfg = true ->
  COMPANY_PREP_TARGET cfg = Some target ->
  str_in target (company_tags d) = false ->
  update_question_metrics cfg (update_time inp) question (rating_in inp) questions
  = Raise AttributeError
  /\ (has_n (start_problem inp) = false ->
      review_single_question cfg inp question today questions
      = Raise AttributeError).
Proof.
  intros Hget Hmode Htarget Htags.
  assert (forall d0 : details,
             company_tags d0 = company_tags d ->
             prep_condition cfg d0 = Ok true) as Hcond.
  { intros d0 Hd0. unfold prep_condition, config_prep_target.
    rewrite Hmode, Htarget, Hd0. simpl. rewrite Htags. reflexivity. }
  split.
  - unfold update_question_metrics. rewrite Hget. simpl.
    rewrite (Hcond d eq_refl). reflexivity.
  - intros Hyes. unfold review_single_question. rewrite Hyes, Hget. simpl.
    rewrite py_div_defined by (apply length_snoc_nonzero; lia). simpl.
    rewrite (store_get_set _ _ d) by assumption. simpl.
    destruct (calculate_average_time_snoc
                (solving_time d)
                (mk_time today (IZR (rated_time inp - start_time inp) / 1000000 / 60)))
      as [avg ->].
    simpl. unfold update_question_metrics.
    erewrite store_get_set by (eapply store_get_set, Hget). simpl.
    rewrite Hcond by reflexivity. reflexivity.
Qed.

Lemma prep_scaling_raises_witness :
  update_question_metrics
    prep_google (update_time (morning_review 3)) "Two Sum"
    (rating_in (morning_review 3)) one_question
  = Raise AttributeError
  /\ (has_n (start_problem (morning_review 3)) = false ->
      review_single_question prep_google (morning_review 3) "Two Sum" 20001%Z one_question
      = Raise AttributeError).
Proof.
  apply (prep_scaling_raises prep_google (morning_review 3) "Two Sum" "Google"
                             20001%Z one_question two_sum);
    reflexivity.
Defined.

(** ** The postconditions of a review *)

Section RetentionRate.

Lemma fold_left_add_shift (l : list Z) (a : Z) :
  fold_left Z.add l a = (a + fold_right Z.add 0 l)%Z.
Proof.
  revert a. induction l as [| x l IH]; intros a; simpl.
  - lia.
  - rewrite IH. lia.
Qed.

Lemma retention_credit_full (r : rating_entry) :
  retention_credit r = full_credit (rating_value r).
Proof.
  unfold retention_credit, full_credit.
  rewrite Z.geb_leb. reflexivity.
Qed.

(** Leaving the zero ratings out of the sum does not change it. *)
Lemma retention_credits_all (rs : list rating_entry) :
  retention_credits rs
  = fold_right Z.add 0%Z (map (fun r => full_credit (rating_value r)) rs).
Proof.
  unfold retention_credits. rewrite fold_left_add_shift, Z.add_0_l.
  induction rs as [| r rs IH]; simpl; [reflexivity |].
  destruct (rating_value r =? 0)%Z eqn:Hz; simpl.
  - apply Z.eqb_eq in Hz. rewrite IH.
    unfold full_credit. rewrite Hz. reflexivity.
  - rewrite IH, retention_credit_full. reflexivity.
Qed.

Lemma retention_rate_as_specified (rs : list rating_entry) :
  IZR (retention_credits rs) / IZR (Z.of_nat (List.length rs) * 5)
  = observed_retention_rate rs.
Proof.
  unfold observed_retention_rate.
  rewrite retention_credits_all, mult_IZR, (Rmult_comm 5). reflexivity.
Qed.

End RetentionRate.








(** ** The listing of the questions that are due *)

Section SortedByKey.

Context {A : Type} (key : A -> Z).

Lemma insert_by_permutation (x : A) (l : list A) :
  Permutation (insert_by key x l) (x :: l).
Proof.
  induction l as [| y l IH]; simpl; [apply Permutation_refl |].
  destruct (key x <=? key y)%Z; [apply Permutation_refl |].
  apply perm_trans with (y :: x :: l); [| apply perm_swap].
  apply perm_skip, IH.
Qed.

Lemma sorted_permutation (l : list A) : Permutation (sorted key l) l.
Proof.
  induction l as [| x l IH]; simpl; [apply perm_nil |].
  apply perm_trans with (x :: sorted key l);
    [apply insert_by_permutation | apply perm_skip, IH].
Qed.

Lemma insert_by_ordered (x : A) (l : list A) :
  StronglySorted (key_le key) l -> StronglySorted (key_le key) (insert_by key x l).
Proof.
  induction 1 as [| y l Hl IH Hy]; simpl.
  - constructor; constructor.
  - destruct (key x <=? key y)%Z eqn:Hxy.
    + apply Z.leb_le in Hxy. constructor.
      * constructor; assumption.
      * constructor; [exact Hxy |].
        eapply Forall_impl; [| exact Hy].
        intros a Ha. unfold key_le in *. lia.
    + apply Z.leb_gt in Hxy. constructor; [exact IH |].
      eapply Permutation_Forall;
        [apply Permutation_sym, insert_by_permutation |].
      constructor; [unfold key_le; lia | exact Hy].
Qed.

Lemma sorted_ordered (l : list A) : StronglySorted (key_le key) (sorted key l).
Proof.
  induction l as [| x l IH]; simpl; [constructor |].
  apply insert_by_ordered, IH.
Qed.

(** [insert_by] puts [x] before the elements of its own key. *)
Lemma insert_by_stable (k : Z) (x : A) (l : list A) :
  filter (has_key key k) (insert_by key x l) = filter (has_key key k) (x :: l).
Proof.
  induction l as [| y l IH]; [reflexivity |].
  simpl insert_by. destruct (key x <=? key y)%Z eqn:Hxy; [reflexivity |].
  apply Z.leb_gt in Hxy.
  change (filter (has_key key k) (y :: insert_by key x l))
    with (if has_key key k y then y :: filter (has_key key k) (insert_by key x l)
          else filter (has_key key k) (insert_by key x l)).
  rewrite IH. simpl. unfold has_key.
  destruct (key x =? k)%Z eqn:Hx; destruct (key y =? k)%Z eqn:Hy;
    try reflexivity.
  apply Z.eqb_eq in Hx, Hy. lia.
Qed.

Lemma sorted_stable (k : Z) (l : list A) :
  filter (has_key key k) (sorted key l) = filter (has_key key k) l.
Proof.
  induction l as [| x l IH]; [reflexivity |].
  simpl sorted. rewrite insert_by_stable. simpl. rewrite IH. reflexivity.
Qed.

End SortedByKey.

Lemma str_in_In (x : string) (tags : list string) :
  str_in x tags = true <-> In x tags.
Proof.
  unfold str_in. rewrite existsb_exists. split.
  - intros [t [Hin Heq]]. apply String.eqb_eq in Heq. subst t. exact Hin.
  - intros Hin. exists x. split; [exact Hin | apply String.eqb_refl].
Qed.

Lemma selected_spec (company : option string) (today : date) (d : details) :
  selected company today d = true <->
  (match company with
   | None => True
   | Some c => In c (company_tags d)
   end)
  /\ ((next_review d <= today)%Z \/ last_reviewed d = today).
Proof.
  unfold selected.
  rewrite andb_true_iff, orb_true_iff, Z.leb_le, Z.eqb_eq.
  destruct company as [c |]; [rewrite str_in_In |]; tauto.
Qed.

(** On day 20001: "LRU Cache" is not due; "3Sum" is listed, being reviewed
    that day; the three questions on arrays keep their order, before the
    one on dynamic programming. *)
Example sorted_questions_five :
  map fst (sorted_questions None 20001%Z five_questions)
  = ["Two Sum"; "3Sum"; "Max Subarray"; "Coin Change"]%string
  /\ map fst (unreviewed_questions None 20001%Z five_questions)
     = ["Two Sum"; "Max Subarray"; "Coin Change"]%string.
Proof. split; reflexivity. Qed.

(** C7.  The listing of [review_questions] holds exactly the questions with
    [next_review <= today] or [last_reviewed = today] (and, when a company
    is given, with that company among their tags); it is ordered by the
    ordinal of the category, and the questions of one category keep the
    order they have in the collection.  So it holds no question with
    [next_review > today], but for those reviewed today. *)
Theorem sorted_questions_due
        (company : option string) (today : date) (questions : store) :
  Permutation (sorted_questions company today questions)
              (filtered_questions company today questions)
  /\ (forall q : string * details,
         In q (sorted_questions company today questions) <->
         In q questions
         /\ (match company with
             | None => True
             | Some c => In c (company_tags (snd q))
             end)
         /\ ((next_review (snd q) <= today)%Z \/ last_reviewed (snd q) = today))
  /\ StronglySorted (key_le sort_key) (sorted_questions company today questions)
  /\ (forall k : Z,
         filter (has_key sort_key k) (sorted_questions company today questions)
         = filter (has_key sort_key k)
                  (filter (fun q => selected company today (snd q)) questions))
  /\ (forall q : string * details,
         In q (sorted_questions company today questions) ->
         (today < next_review (snd q))%Z ->
         last_reviewed (snd q) = today).
Proof.
  assert (forall q : string * details,
             In q (sorted_questions company today questions) <->
             In q questions
             /\ (match company with
                 | None => True
                 | Some c => In c (company_tags (snd q))
                 end)
             /\ ((next_review (snd q) <= today)%Z \/ last_reviewed (snd q) = today))
    as Hmem.
  { intros q. unfold sorted_questions, filtered_questions.
    rewrite <- selected_spec.
    rewrite <- (filter_In (fun q0 => selected company today (snd q0)) q questions).
    split; intros Hin.
    - eapply Permutation_in; [apply sorted_permutation | exact Hin].
    - eapply Permutation_in; [apply Permutation_sym, sorted_permutation | exact Hin]. }
  split; [apply sorted_permutation |].
  split; [exact Hmem |].
  split; [apply (sorted_ordered sort_key) |].
  split; [intros k; apply (sorted_stable sort_key) |].
  intros q Hin Hlate. apply Hmem in Hin as (_ & _ & [Hdue | Hdone]); [lia | exact Hdone].
Qed.

(** ** Loading the collection *)

(** C9, as the code has it.  When [json.load] fails with a
    [JSONDecodeError], and when the file is absent, [load_questions] leaves
    the empty collection; when [json.load] returns a document it leaves a
    document.  It raises exactly when [json.load] raises something else,
    which the [except] clause lets through. *)
Theorem load_questions_recovery :
  load_questions (Present (Raise JSONDecodeError)) = Ok (JObject [])
  /\ load_questions Absent = Ok (JObject [])
  /\ (forall v : json,
         load_questions (Present (Ok v)) = Ok (if truthy v then v else JObject []))
  /\ (forall (f : data_file) (e : py_exn),
         load_questions f = Raise e <->
         f = Present (Raise e) /\ e <> JSONDecodeError).
Proof.
  split; [reflexivity |]. split; [reflexivity |].
  split; [intros v; simpl; destruct (truthy v); reflexivity |].
  intros f e. split.
  - destruct f as [| [v | e0]]; simpl.
    + discriminate.
    + destruct (truthy v); discriminate.
    + destruct e0; intros H; try discriminate H;
        injection H as <-; (split; [reflexivity | discriminate]).
  - intros [-> Hne]. destruct e; try reflexivity. contradiction Hne; reflexivity.
Qed.

(** C9, as the specification has it, fails.  On a file whose bytes are no
    text (a single byte 0xFF, say) [json.load] raises [UnicodeDecodeError]
    while it reads; this is no [JSONDecodeError], and [load_questions]
    raises it. *)
Lemma load_questions_undecodable :
  load_questions (Present (Raise UnicodeDecodeError)) = Raise UnicodeDecodeError
  /\ ~ (forall f : data_file, exists v : json, load_questions f = Ok v).
Proof.
  split; [reflexivity |].
  intros Hall. destruct (Hall (Present (Raise UnicodeDecodeError))) as [v Hv].
  discriminate Hv.
Qed.

(** ** More on the memory model *)

Section ForgettingCurve.


Lemma DECAY_neg : FSRS.DECAY < 0.
Proof. unfold FSRS.DECAY. lra. Qed.

Lemma py_pow_defined (a b : R) : 0 < a -> py_pow a b = Ok (Rpower a b).
Proof.
intros Ha. unfold py_pow.
destruct (Rlt_dec 0 a); [reflexivity | contradiction].
Qed.

(** The base of the power in [forgetting_curve]. *)
Lemma curve_base_ge_one (elapsed_days : Z) (stability : R) :
  0 < stability -> (0 <= elapsed_days)%Z ->
  1 <= 1 + FSRS.FACTOR * IZR elapsed_days / stability.
Proof.
intros Hs He.
assert (0 <= IZR elapsed_days) by (apply IZR_le; assumption).
assert (0 <= FSRS.FACTOR * IZR elapsed_days / stability).
{ apply Rmult_le_pos; [apply Rmult_le_pos |]; try assumption.
  - left. apply FACTOR_pos.
  - left. apply Rinv_0_lt_compat. assumption. }
lra.
Qed.

Lemma forgetting_curve_value (elapsed_days : Z) (stability : R) :
  0 < stability -> (0 <= elapsed_days)%Z ->
  FSRS.forgetting_curve elapsed_days stability
  = Ok (Rpower (1 + FSRS.FACTOR * IZR elapsed_days / stability) FSRS.DECAY).
Proof.
intros Hs He. unfold FSRS.forgetting_curve.
rewrite py_div_defined by lra. simpl.
apply py_pow_defined.
pose proof (curve_base_ge_one _ _ Hs He). lra.
Qed.

Lemma py_round_integer (n : Z) : py_round (IZR n) = n.
Proof.
unfold py_round. cbv zeta.
replace (Int_part (IZR n)) with n by (apply Int_part_spec; lra).
destruct (Rlt_dec (IZR n - IZR n) (1 / 2)) as [_ | H]; [reflexivity | lra].
Qed.

Lemma raw_interval_at_ninety (stability : R) : raw_interval stability 0.9 = stability.
Proof.
unfold raw_interval.
change (Rpower 0.9 (1 / FSRS.DECAY) - 1) with FSRS.FACTOR.
pose proof FACTOR_pos as Hpos.
unfold Rdiv. rewrite Rmult_assoc, Rinv_l by lra. lra.
Qed.

Lemma forgetting_curve_at_raw_interval (stability retention_factor : R) (n : Z) :
  0 < stability ->
  0 < retention_factor ->
  raw_interval stability retention_factor = IZR n ->
  FSRS.forgetting_curve n stability = Ok retention_factor.
Proof.
intros Hs Hr Hraw.
unfold FSRS.forgetting_curve. rewrite py_div_defined by lra. simpl.
rewrite <- Hraw. unfold raw_interval.
pose proof FACTOR_pos as HF.
replace (1 + FSRS.FACTOR
             * (stability / FSRS.FACTOR
                * (Rpower retention_factor (1 / FSRS.DECAY) - 1))
             / stability)
  with (Rpower retention_factor (1 / FSRS.DECAY)) by (field; lra).
rewrite py_pow_defined by (unfold Rpower; apply exp_pos).
rewrite Rpower_mult.
replace (1 / FSRS.DECAY * FSRS.DECAY) with 1 by (unfold FSRS.DECAY; lra).
rewrite Rpower_1 by assumption. reflexivity.
Qed.

End ForgettingCurve.


(** X2.  For a positive stability and a number of days from 0 to 365 (the
    days are the stored interval), the retrievability is in [0, 1]; it does
    not grow with the days elapsed, and does not shrink when the stability
    grows. *)
Theorem forgetting_curve_range (t1 t2 : Z) (s1 s2 : R) :
  (0 <= t1 <= t2)%Z -> (t2 <= 365)%Z ->
  0 < s1 -> s1 <= s2 ->
  exists r11 r21 r12 : R,
    FSRS.forgetting_curve t1 s1 = Ok r11
    /\ FSRS.forgetting_curve t2 s1 = Ok r21
    /\ FSRS.forgetting_curve t1 s2 = Ok r12
    /\ 0 <= r21 /\ r21 <= r11 /\ r11 <= r12 /\ r12 <= 1.
Proof.
intros [Ht1 Ht] _ Hs1 Hs.
do 3 eexists.
rewrite !forgetting_curve_value by (try lra; lia).
split; [reflexivity |]. split; [reflexivity |]. split; [reflexivity |].
pose proof FACTOR_pos as HF.
assert (0 <= IZR t1) as H1 by (apply IZR_le; assumption).
assert (IZR t1 <= IZR t2) as H12 by (apply IZR_le; assumption).
pose proof (curve_base_ge_one t1 s1 Hs1 Ht1) as Hb11.
pose proof (curve_base_ge_one t1 s2 ltac:(lra) Ht1) as Hb12.
split; [left; unfold Rpower; apply exp_pos |].
split; [| split].
- apply Rpower_neg_antitone; [apply DECAY_neg | lra |].
  apply Rplus_le_compat_l.
  apply Rmult_le_compat_r; [left; apply Rinv_0_lt_compat; assumption |].
  apply Rmult_le_compat_l; lra.
- apply Rpower_neg_antitone; [apply DECAY_neg | lra |].
  apply Rplus_le_compat_l.
  apply Rmult_le_compat_l; [apply Rmult_le_pos; lra |].
  apply Rinv_le_contravar; assumption.
- apply Rpower_neg_below_one; [apply DECAY_neg | assumption].
Qed.

Lemma forgetting_curve_range_witness :
  exists r11 r21 r12 : R,
    FSRS.forgetting_curve 1 2.5 = Ok r11
    /\ FSRS.forgetting_curve 7 2.5 = Ok r21
    /\ FSRS.forgetting_curve 1 10 = Ok r12
    /\ 0 <= r21 /\ r21 <= r11 /\ r11 <= r12 /\ r12 <= 1.
Proof. apply forgetting_curve_range; try lra; lia. Defined.

(** X3.  [next_interval] inverts [forgetting_curve]: when the formula of
    the interval gives a whole number [n] of days, the retrievability after
    [n] days is the retention asked for, and [next_interval] returns [n] if
    [n] is between 1 and 365. *)
Theorem next_interval_inverts_curve (stability retention_factor : R) (n : Z) :
  0 < stability ->
  0 < retention_factor ->
  raw_interval stability retention_factor = IZR n ->
  FSRS.forgetting_curve n stability = Ok retention_factor
  /\ ((1 <= n <= 365)%Z ->
      FSRS.next_interval stability retention_factor = Ok n).
Proof.
intros Hs Hr Hraw. split.
- apply forgetting_curve_at_raw_interval; assumption.
- intros Hn. rewrite next_interval_defined by assumption.
  rewrite Hraw, py_round_integer.
  unfold clamp_interval, FSRS.maximum_interval, interval_cap.
  f_equal. lia.
Qed.

Lemma next_interval_inverts_curve_witness :
  FSRS.forgetting_curve 2 2 = Ok 0.9
  /\ ((1 <= 2 <= 365)%Z -> FSRS.next_interval 2 0.9 = Ok 2%Z).
Proof.
apply next_interval_inverts_curve; try lra.
apply raw_interval_at_ninety.
Defined.

Lemma py_round_within (x : R) (k : Z) :
  IZR k - 1 / 2 < x < IZR k + 1 / 2 -> py_round x = k.
Proof.
intros [Hlo Hhi]. pose proof (py_round_near x) as [Hn Hn'].
assert (k - 1 < py_round x < k + 1)%Z as Hk.
{ split; apply lt_IZR; rewrite ?minus_IZR, ?plus_IZR; lra. }
lia.
Qed.

(** X4.  At the retention 0.9 the interval is the stability in whole days:
    a stability within 0.49 of a whole number [k] of days between 1 and 365
    gives the interval [k], and after [k] days a stability of [k] has come
    down to the retrievability 0.9. *)
Theorem stability_is_interval_at_ninety (stability : R) (k : Z) :
  (1 <= k <= 365)%Z ->
  IZR k - 0.49 <= stability <= IZR k + 0.49 ->
  FSRS.next_interval stability 0.9 = Ok k
  /\ FSRS.forgetting_curve k (IZR k) = Ok 0.9.
Proof.
intros Hk Hs. split.
- rewrite next_interval_defined by lra.
  rewrite raw_interval_at_ninety, (py_round_within stability k) by lra.
  unfold clamp_interval, FSRS.maximum_interval, interval_cap.
  f_equal. lia.
- apply forgetting_curve_at_raw_interval;
    [apply IZR_lt; lia | lra | apply raw_interval_at_ninety].
Qed.

Lemma stability_is_interval_at_ninety_witness :
  FSRS.next_interval 6.8 0.9 = Ok 7%Z
  /\ FSRS.forgetting_curve 7 (IZR 7) = Ok 0.9.
Proof. apply stability_is_interval_at_ninety; [lia | lra]. Defined.

Section StabilityAndDifficulty.

Lemma w_8_10_15 :
  FSRS.w_ 9 = 0.1 /\ FSRS.w_ 10 = 0.1 /\ FSRS.w_ 15 = 0.6.
Proof. repeat split. Qed.

Lemma next_recall_stability_value (difficulty stability retrievability : R) (rating : Z) :
  0 < stability ->
  FSRS.next_recall_stability difficulty stability retrievability rating
  = Ok (stability
        * (1 + exp (FSRS.w_ 8) * (11 - difficulty) * Rpower stability (- FSRS.w_ 9)
               * (exp ((1 - retrievability) * FSRS.w_ 10) - 1))
        * (if (rating =? 2)%Z then FSRS.w_ 15 else 1)).
Proof.
intros Hs. unfold FSRS.next_recall_stability, math_pow.
destruct (Rlt_dec 0 stability); [reflexivity | contradiction].
Qed.

(** The growth that [next_recall_stability] applies is not negative. *)
Lemma stability_growth_nonneg (difficulty stability retrievability : R) :
  0 < stability -> difficulty <= 11 -> retrievability <= 1 ->
  0 <= exp (FSRS.w_ 8) * (11 - difficulty) * Rpower stability (- FSRS.w_ 9)
       * (exp ((1 - retrievability) * FSRS.w_ 10) - 1).
Proof.
intros Hs Hd Hr.
destruct w_8_10_15 as (_ & -> & _).
assert (1 <= exp ((1 - retrievability) * 0.1)) as Hexp.
{ assert (0 <= (1 - retrievability) * 0.1) as [Hlt | Heq] by lra.
  - left. apply exp_increasing in Hlt. rewrite exp_0 in Hlt. exact Hlt.
  - rewrite <- Heq, exp_0. lra. }
repeat apply Rmult_le_pos; try lra.
- left. apply exp_pos.
- left. unfold Rpower. apply exp_pos.
Qed.

Lemma Rmin_Rmax_monotone (x y lo hi : R) :
  x <= y -> Rmin (Rmax x lo) hi <= Rmin (Rmax y lo) hi.
Proof.
intros Hxy.
apply Rle_min_compat_r. apply Rle_max_compat_r. exact Hxy.
Qed.

End StabilityAndDifficulty.

(** X5.  For a positive stability, a difficulty in [1, 10] and a
    retrievability in [0, 1], [next_recall_stability] returns a positive
    stability: no less than the one it is given, but for the rating 2, where
    it is no less than 0.6 times that.  With a retrievability of 1 nothing is
    gained. *)
Theorem next_recall_stability_growth
        (difficulty stability retrievability : R) (rating : Z) :
  0 < stability ->
  1 <= difficulty <= 10 ->
  0 <= retrievability <= 1 ->
  exists s : R,
    FSRS.next_recall_stability difficulty stability retrievability rating = Ok s
    /\ 0 < s
    /\ (rating <> 2%Z -> stability <= s)
    /\ (rating = 2%Z -> 0.6 * stability <= s)
    /\ (retrievability = 1 ->
        s = stability * (if (rating =? 2)%Z then 0.6 else 1)).
Proof.
intros Hs [_ Hd] [_ Hr]. eexists.
split; [apply next_recall_stability_value; assumption |].
pose proof (stability_growth_nonneg difficulty stability retrievability Hs
                                    ltac:(lra) Hr)
  as Hg.
destruct w_8_10_15 as (_ & H10 & H15). rewrite H15.
set (g := exp (FSRS.w_ 8) * (11 - difficulty) * Rpower stability (- FSRS.w_ 9)
          * (exp ((1 - retrievability) * FSRS.w_ 10) - 1)) in *.
assert (stability <= stability * (1 + g)) as Hgrow by nra.
split; [destruct (rating =? 2)%Z; nra |].
split; [| split].
- intros Hne. apply Z.eqb_neq in Hne. rewrite Hne. lra.
- intros ->. simpl. lra.
- intros ->. unfold g.
  replace ((1 - 1) * FSRS.w_ 10) with 0 by ring.
  rewrite exp_0. ring.
Qed.

Lemma next_recall_stability_growth_witness :
  exists s : R,
    FSRS.next_recall_stability 5.0 2.5 0.9 3 = Ok s
    /\ 0 < s
    /\ (3%Z <> 2%Z -> 2.5 <= s)
    /\ (3%Z = 2%Z -> 0.6 * 2.5 <= s)
    /\ (0.9 = 1 -> s = 2.5 * (if (3 =? 2)%Z then 0.6 else 1)).
Proof. apply next_recall_stability_growth; lra. Defined.

(** X6.  [next_difficulty] does not decrease when the difficulty grows and
    does not increase when the rating grows; and on a difficulty in [1, 10]
    the rating 3 halves the distance to 5.0. *)
Theorem next_difficulty_monotone (d1 d2 : R) (k1 k2 : Z) :
  d1 <= d2 -> (k1 <= k2)%Z ->
  FSRS.next_difficulty d1 k2 <= FSRS.next_difficulty d2 k1
  /\ (1 <= d1 <= 10 -> FSRS.next_difficulty d1 3 - 5 = (d1 - 5) / 2).
Proof.
intros Hd Hk. split.
- unfold FSRS.next_difficulty. cbv zeta.
  apply Rmin_Rmax_monotone.
  unfold FSRS.mean_reversion. rewrite w_6, w_7.
  assert (IZR (k1 - 3) <= IZR (k2 - 3)) by (apply IZR_le; lia).
  lra.
- intros Hr.
  unfold FSRS.next_difficulty, FSRS.mean_reversion. cbv zeta.
  rewrite w_6, w_7.
  replace (IZR (3 - 3)) with 0 by (simpl; lra).
  rewrite Rmax_left by lra. rewrite Rmin_left by lra. lra.
Qed.

Lemma next_difficulty_monotone_witness :
  FSRS.next_difficulty 4.0 5 <= FSRS.next_difficulty 6.0 1
  /\ (1 <= 4.0 <= 10 -> FSRS.next_difficulty 4.0 3 - 5 = (4.0 - 5) / 2).
Proof. apply next_difficulty_monotone; [lra | lia]. Defined.

(** ** More on the store *)

Section StoreFacts.

Lemma store_set_set (questions : store) (question : string) (a b : details) :
  store_set (store_set questions question a) question b
  = store_set questions question b.
Proof.
induction questions as [| [k e] rest IH]; simpl; [reflexivity |].
destruct (String.eqb k question) eqn:Hk; simpl; rewrite Hk.
- reflexivity.
- rewrite IH. reflexivity.
Qed.

Lemma store_get_set_other (questions : store) (question other : string) (d : details) :
  other <> question ->
  store_get (store_set questions question d) other = store_get questions other.
Proof.
intros Hne.
induction questions as [| [k e] rest IH]; simpl; [reflexivity |].
destruct (String.eqb k question) eqn:Hk; simpl.
- apply String.eqb_eq in Hk. subst k.
  destruct (String.eqb question other) eqn:Ho; [| reflexivity].
  apply String.eqb_eq in Ho. congruence.
- rewrite IH. reflexivity.
Qed.

Lemma store_get_In (questions : store) (question : string) (d : details) :
  store_get questions question = Ok d -> In (question, d) questions.
Proof.
induction questions as [| [k e] rest IH]; simpl; [discriminate |].
destruct (String.eqb k question) eqn:Hk.
- apply String.eqb_eq in Hk. subst k. intros H. injection H as <-. left. reflexivity.
- intros H. right. apply IH, H.
Qed.

Lemma In_store_get (questions : store) (question : string) (d : details) :
  NoDup (map fst questions) ->
  In (question, d) questions -> store_get questions question = Ok d.
Proof.
induction questions as [| [k e] rest IH]; simpl; [contradiction |].
intros Hnd [Heq | Hin].
- injection Heq as -> ->. rewrite String.eqb_refl. reflexivity.
- inversion Hnd as [| ? ? Hk Hrest]; subst.
  destruct (String.eqb k question) eqn:Hkq.
  + apply String.eqb_eq in Hkq. subst k. exfalso. apply Hk.
    apply (in_map fst) in Hin. exact Hin.
  + apply IH; assumption.
Qed.

(** The entries after a write: the one written, or an entry of before under
    another key. *)
Lemma In_store_set (questions : store) (question k : string) (d x : details) :
  NoDup (map fst questions) ->
  In (k, x) (store_set questions question d) ->
  (k = question /\ x = d) \/ (k <> question /\ In (k, x) questions).
Proof.
induction questions as [| [k0 e] rest IH]; simpl; [contradiction |].
intros Hnd Hin. inversion Hnd as [| ? ? Hk0 Hrest]; subst.
destruct (String.eqb k0 question) eqn:Hk.
- apply String.eqb_eq in Hk. subst k0.
  destruct Hin as [Heq | Hin].
  + injection Heq as <- <-. left. split; reflexivity.
  + right. split; [| right; exact Hin].
    intros ->. apply Hk0. apply (in_map fst) in Hin. exact Hin.
- apply String.eqb_neq in Hk.
  destruct Hin as [Heq | Hin].
  + injection Heq as <- <-. right. split; [exact Hk | left; reflexivity].
  + destruct (IH Hrest Hin) as [Hl | [Hne Hr]]; [left; exact Hl |].
    right. split; [exact Hne | right; exact Hr].
Qed.

End StoreFacts.

(** ** More on one review *)

Section ReviewFacts.

Variables (cfg : config) (inp : review_input) (question : string) (today : date).

(** The collection that a completed review leaves. *)
Lemma review_single_question_store (questions questions' : store) (d : details) :
  store_get questions question = Ok d ->
  review_single_question cfg inp question today questions = Ok (true, questions') ->
  exists (avg : option R) (r s : R) (n : Z),
    calculate_average_time
      (solving_time d
       ++ [mk_time today (IZR (rated_time inp - start_time inp) / 1000000 / 60)])
    = Ok avg
    /\ FSRS.forgetting_curve (interval d) (stability d) = Ok r
    /\ FSRS.next_recall_stability
         (difficulty d) (stability d) r (rating_in inp) = Ok s
    /\ FSRS.next_interval s (retention_factor d) = Ok n
    /\ questions'
       = store_set questions question
           (reviewed inp today d
              (IZR (retention_credits
                      (ratings d ++ [mk_rating today (rating_in inp)]))
               / IZR (Z.of_nat
                        (List.length
                           (ratings d ++ [mk_rating today (rating_in inp)]))
                      * 5))
              avg s n).
Proof.
intros Hget Hrev. unfold review_single_question in Hrev.
destruct (has_n (start_problem inp)); [discriminate Hrev |].
rewrite Hget in Hrev. simpl in Hrev.
rewrite py_div_defined in Hrev by (apply length_snoc_nonzero; lia).
simpl in Hrev.
rewrite (store_get_set _ _ d) in Hrev by assumption. simpl in Hrev.
apply bind_ok_inv in Hrev as [avg [Havg Hrev]].
apply bind_ok_inv in Hrev as [questions3 [Hupd Hrev]].
apply bind_ok_inv in Hrev as [d3 [Hget3 Hrev]].
injection Hrev as <-.
eapply update_question_metrics_inv in Hupd as [Hcond [r [s [n [Hr [Hs [Hn Heq]]]]]]];
  [| eapply store_get_set, store_get_set, Hget].
subst questions3.
exists avg, r, s, n.
split; [exact Havg |].
split; [exact Hr |]. split; [exact Hs |]. split; [exact Hn |].
erewrite store_get_set in Hget3
  by (eapply store_get_set, store_get_set, Hget).
injection Hget3 as <-.
rewrite !store_set_set. reflexivity.
Qed.

(** A review that does not raise has either been declined, and changed
    nothing, or gone through. *)
Lemma review_single_question_cases (questions questions' : store) (b : bool) :
  review_single_question cfg inp question today questions = Ok (b, questions') ->
  (b = false /\ questions' = questions /\ has_n (start_problem inp) = true)
  \/ (b = true /\ has_n (start_problem inp) = false
      /\ exists d : details, store_get questions question = Ok d).
Proof.
intros Hrev. unfold review_single_question in Hrev.
destruct (has_n (start_problem inp)).
- injection Hrev as <- <-. left. repeat split.
- right.
  destruct (store_get questions question) as [d | e] eqn:Hget;
    [| discriminate Hrev].
  simpl in Hrev.
  rewrite py_div_defined in Hrev by (apply length_snoc_nonzero; lia).
  simpl in Hrev.
  apply bind_ok_inv in Hrev as [d1 [_ Hrev]].
  apply bind_ok_inv in Hrev as [avg [_ Hrev]].
  apply bind_ok_inv in Hrev as [questions3 [_ Hrev]].
  apply bind_ok_inv in Hrev as [d3 [_ Hrev]].
  injection Hrev as <- _.
  split; [reflexivity |]. split; [reflexivity |]. exists d. reflexivity.
Qed.

End ReviewFacts.

Section ReviewInvariants.

Lemma forgetting_curve_le_one (elapsed_days : Z) (stability r : R) :
  0 < stability -> (0 <= elapsed_days)%Z ->
  FSRS.forgetting_curve elapsed_days stability = Ok r ->
  0 < r <= 1.
Proof.
intros Hs He Hfc. rewrite forgetting_curve_value in Hfc by assumption.
injection Hfc as <-. split.
- unfold Rpower. apply exp_pos.
- apply Rpower_neg_below_one; [apply DECAY_neg |].
  apply curve_base_ge_one; assumption.
Qed.

Lemma next_recall_stability_pos
      (difficulty stability retrievability s : R) (rating : Z) :
  0 < stability -> difficulty <= 11 -> retrievability <= 1 ->
  FSRS.next_recall_stability difficulty stability retrievability rating = Ok s ->
  0 < s.
Proof.
intros Hs Hd Hr Hnrs.
rewrite next_recall_stability_value in Hnrs by assumption.
injection Hnrs as <-.
pose proof (stability_growth_nonneg difficulty stability retrievability Hs Hd Hr)
  as Hg.
destruct w_8_10_15 as (_ & _ & ->).
destruct (rating =? 2)%Z; nra.
Qed.

Lemma next_interval_ok_range (stability retention_factor : R) (n : Z) :
  FSRS.next_interval stability retention_factor = Ok n -> (1 <= n <= 365)%Z.
Proof.
unfold FSRS.next_interval. intros H.
apply bind_ok_inv in H as [p [_ H]]. injection H as <-.
apply clamp_interval_range.
Qed.

Lemma fold_left_Rplus_shift (l : list R) (a : R) :
  fold_left Rplus l a = a + fold_right Rplus 0 l.
Proof.
revert a. induction l as [| x l IH]; intros a; simpl.
- lra.
- rewrite IH. lra.
Qed.

Lemma calculate_average_time_mean (ts : list time_entry) (avg : option R) :
  ts <> [] ->
  calculate_average_time ts = Ok avg ->
  avg = Some (mean (map time_taken ts)).
Proof.
intros Hne Hcalc. unfold calculate_average_time in Hcalc.
destruct ts as [| t rest]; [contradiction Hne; reflexivity |].
apply bind_ok_inv in Hcalc as [a [Ha Hcalc]]. injection Hcalc as <-.
unfold py_div in Ha.
destruct (Req_dec_T (IZR (Z.of_nat (List.length (t :: rest)))) 0);
  [discriminate Ha |].
injection Ha as <-.
unfold mean. rewrite fold_left_Rplus_shift, Rplus_0_l, length_map. reflexivity.
Qed.

End ReviewInvariants.

(** X7.  A completed review keeps the data model: an item with a positive
    stability, a difficulty in [1, 10], an interval in [1, 365] and a
    positive retention target is left with the same; its link, problem
    type, company tags and retention target are not touched; and after a
    rating of 1 its stability is at least 0.1. *)
Theorem review_keeps_data_model
        (cfg : config) (inp : review_input) (question : string) (today : date)
        (questions questions' : store) (d : details) :
  store_get questions question = Ok d ->
  valid_item d ->
  review_single_question cfg inp question today questions = Ok (true, questions') ->
  exists d' : details,
    store_get questions' question = Ok d'
    /\ valid_item d'
    /\ link d' = link d
    /\ problem_type d' = problem_type d
    /\ company_tags d' = company_tags d
    /\ retention_factor d' = retention_factor d
    /\ (rating_in inp = 1%Z -> 0.1 <= stability d').
Proof.
intros Hget (Hs & Hd & Hi & Hrf) Hrev.
destruct (review_single_question_store _ _ _ _ _ _ _ Hget Hrev)
  as (avg & r & s & n & _ & Hr & Hnrs & Hn & ->).
eexists. split; [eapply store_get_set, Hget |].
apply forgetting_curve_le_one in Hr as [_ Hr1]; [| assumption | lia].
eapply next_recall_stability_pos in Hnrs; [| assumption | lra | assumption].
apply next_interval_ok_range in Hn.
unfold reviewed, valid_item. simpl.
split; [| repeat split].
- split; [| split; [| split]].
  + destruct (rating_in inp =? 1)%Z; [| assumption].
    eapply Rlt_le_trans; [| apply Rmax_r]. lra.
  + apply next_difficulty_clamped.
  + unfold interval_cap. destruct (rating_in inp =? 1)%Z; lia.
  + assumption.
- intros ->. simpl. apply Rmax_r.
Qed.

Lemma review_keeps_data_model_witness :
  exists (questions' : store) (d' : details),
    review_single_question prep_off (morning_review 2) "Two Sum" 20001%Z one_question
    = Ok (true, questions')
    /\ store_get questions' "Two Sum" = Ok d'
    /\ valid_item d'
    /\ link d' = link two_sum
    /\ problem_type d' = problem_type two_sum
    /\ company_tags d' = company_tags two_sum
    /\ retention_factor d' = retention_factor two_sum
    /\ (rating_in (morning_review 2) = 1%Z -> 0.1 <= stability d').
Proof.
destruct (review_single_question_defined
            prep_off (morning_review 2) "Two Sum" 20001%Z one_question two_sum)
  as [questions' Hrev]; try reflexivity; simpl; try lra; try lia.
assert (valid_item two_sum) as Hvalid.
{ unfold valid_item. simpl. repeat split; try lra; lia. }
destruct (review_keeps_data_model
            prep_off (morning_review 2) "Two Sum" 20001%Z one_question questions'
            two_sum eq_refl Hvalid Hrev) as (d' & H).
exists questions', d'. split; [exact Hrev | exact H].
Defined.

(** X8.  A review, declined or completed, touches no other question: the
    collection keeps its names, in their order, and every other name keeps
    its entry.  A review that is declined changes nothing at all. *)
Theorem review_touches_one_question
        (cfg : config) (inp : review_input) (question : string) (today : date)
        (questions questions' : store) (b : bool) :
  review_single_question cfg inp question today questions = Ok (b, questions') ->
  map fst questions' = map fst questions
  /\ (forall other : string,
         other <> question ->
         store_get questions' other = store_get questions other)
  /\ (b = false -> questions' = questions).
Proof.
intros Hrev.
destruct (review_single_question_cases _ _ _ _ _ _ _ Hrev)
  as [(-> & -> & _) | (-> & _ & d & Hget)].
- repeat split.
- destruct (review_single_question_store _ _ _ _ _ _ _ Hget Hrev)
    as (avg & r & s & n & _ & _ & _ & _ & ->).
  split; [apply store_set_keys |].
  split; [| discriminate].
  intros other Hne. apply store_get_set_other, Hne.
Qed.

Lemma review_touches_one_question_witness :
  exists questions' : store,
    review_single_question
      prep_off (morning_review 5) "Two Sum" 20001%Z five_questions
    = Ok (true, questions')
    /\ map fst questions' = map fst five_questions
    /\ (forall other : string,
           other <> "Two Sum"%string ->
           store_get questions' other = store_get five_questions other)
    /\ (true = false -> questions' = five_questions).
Proof.
destruct (review_single_question_defined
            prep_off (morning_review 5) "Two Sum" 20001%Z five_questions
            (question_of Arrays 19999%Z 20001%Z))
  as [questions' Hrev]; try reflexivity; simpl; try lra; try lia.
exists questions'. split; [exact Hrev |].
exact (review_touches_one_question _ _ _ _ _ _ _ Hrev).
Defined.

(** X9.  A completed review appends [(today, minutes)] to the solving
    times, the minutes being the time between the two readings of the
    clock; it leaves as average time the mean of all the times recorded,
    never [None]; and it stores the explanation. *)
Theorem review_records_time
        (cfg : config) (inp : review_input) (question : string) (today : date)
        (questions questions' : store) (d : details) :
  store_get questions question = Ok d ->
  review_single_question cfg inp question today questions = Ok (true, questions') ->
  exists d' : details,
    store_get questions' question = Ok d'
    /\ solving_time d'
       = solving_time d
         ++ [mk_time today (IZR (rated_time inp - start_time inp) / 1000000 / 60)]
    /\ average_time d' = Some (mean (map time_taken (solving_time d')))
    /\ feynman d' = explanation inp.
Proof.
intros Hget Hrev.
destruct (review_single_question_store _ _ _ _ _ _ _ Hget Hrev)
  as (avg & r & s & n & Havg & _ & _ & _ & ->).
eexists. split; [eapply store_get_set, Hget |].
unfold reviewed. simpl.
split; [reflexivity |]. split; [| reflexivity].
apply calculate_average_time_mean in Havg; [exact Havg |].
destruct (solving_time d); discriminate.
Qed.

Lemma review_records_time_witness :
  exists (questions' : store) (d' : details),
    review_single_question prep_off (morning_review 4) "Two Sum" 20001%Z one_question
    = Ok (true, questions')
    /\ store_get questions' "Two Sum" = Ok d'
    /\ solving_time d'
       = [mk_time 20001%Z
            (IZR (rated_time (morning_review 4) - start_time (morning_review 4))
             / 1000000 / 60)]
    /\ average_time d' = Some (mean (map time_taken (solving_time d')))
    /\ feynman d' = explanation (morning_review 4).
Proof.
destruct (review_single_question_defined
            prep_off (morning_review 4) "Two Sum" 20001%Z one_question two_sum)
  as [questions' Hrev]; try reflexivity; simpl; try lra; try lia.
destruct (review_records_time
            prep_off (morning_review 4) "Two Sum" 20001%Z one_question questions'
            two_sum eq_refl Hrev) as (d' & H).
exists questions', d'. split; [exact Hrev | exact H].
Defined.

Section RetentionRange.

Lemma full_credit_bounds (k : Z) :
  (full_credit k <= 5)%Z /\ ((1 <= k)%Z -> (1 <= full_credit k)%Z).
Proof.
unfold full_credit. destruct (k >=? 4)%Z eqn:Hk; rewrite Z.geb_leb in Hk.
- lia.
- apply Z.leb_gt in Hk. lia.
Qed.

Lemma full_credit_sum_bounds (rs : list rating_entry) :
  (fold_right Z.add 0%Z (map (fun r => full_credit (rating_value r)) rs)
   <= 5 * Z.of_nat (List.length rs))%Z
  /\ ((forall r : rating_entry, In r rs -> (1 <= rating_value r)%Z) ->
      (Z.of_nat (List.length rs)
       <= fold_right Z.add 0%Z (map (fun r => full_credit (rating_value r)) rs))%Z)
  /\ ((forall r : rating_entry, In r rs -> (4 <= rating_value r)%Z) ->
      fold_right Z.add 0%Z (map (fun r => full_credit (rating_value r)) rs)
      = (5 * Z.of_nat (List.length rs))%Z).
Proof.
induction rs as [| r rs (IHu & IHl & IHe)]; simpl List.length; simpl map;
  simpl fold_right.
- repeat split; intros; lia.
- destruct (full_credit_bounds (rating_value r)) as [Hu Hl].
  split; [lia |]. split.
  + intros Hall.
    assert (1 <= full_credit (rating_value r))%Z
      by (apply Hl, Hall; left; reflexivity).
    assert (Z.of_nat (List.length rs)
            <= fold_right Z.add 0%Z
                 (map (fun r0 => full_credit (rating_value r0)) rs))%Z
      by (apply IHl; intros r0 Hr0; apply Hall; right; exact Hr0).
    lia.
  + intros Hall.
    rewrite IHe by (intros r0 Hr0; apply Hall; right; exact Hr0).
    assert (4 <= rating_value r)%Z as H4 by (apply Hall; left; reflexivity).
    unfold full_credit. apply Z.geb_le in H4. rewrite H4. lia.
Qed.

Lemma observed_retention_rate_range (rs : list rating_entry) :
  rs <> [] ->
  (forall r : rating_entry, In r rs -> (1 <= rating_value r)%Z) ->
  1 / 5 <= observed_retention_rate rs <= 1
  /\ ((forall r : rating_entry, In r rs -> (4 <= rating_value r)%Z) ->
      observed_retention_rate rs = 1).
Proof.
intros Hne Hall. unfold observed_retention_rate.
destruct (full_credit_sum_bounds rs) as (Hu & Hl & He).
specialize (Hl Hall).
set (total := fold_right Z.add 0%Z
                (map (fun r => full_credit (rating_value r)) rs)) in *.
assert (0 < Z.of_nat (List.length rs))%Z as Hlen
  by (destruct rs; [contradiction Hne; reflexivity | simpl; lia]).
apply IZR_lt in Hlen. apply IZR_le in Hu, Hl. rewrite mult_IZR in Hu.
assert (0 < 5 * IZR (Z.of_nat (List.length rs))) as Hden by lra.
split; [split |].
- apply Rmult_le_reg_r with (5 * IZR (Z.of_nat (List.length rs))); [exact Hden |].
  unfold Rdiv at 2. rewrite Rmult_assoc, Rinv_l by lra. lra.
- apply Rmult_le_reg_r with (5 * IZR (Z.of_nat (List.length rs))); [exact Hden |].
  unfold Rdiv. rewrite Rmult_assoc, Rinv_l by lra. lra.
- intros Hfour. rewrite (He Hfour), mult_IZR.
  unfold Rdiv. apply Rinv_r. lra.
Qed.

End RetentionRange.

(** X10.  When every rating on record, the new one included, is at least
    1, a completed review leaves a retention rate between 1/5 and 1; it is
    1 when every rating is 4 or more. *)
Theorem review_retention_rate_range
        (cfg : config) (inp : review_input) (question : string) (today : date)
        (questions questions' : store) (d : details) :
  store_get questions question = Ok d ->
  (forall r : rating_entry, In r (ratings d) -> (1 <= rating_value r)%Z) ->
  (1 <= rating_in inp)%Z ->
  review_single_question cfg inp question today questions = Ok (true, questions') ->
  exists (d' : details) (x : R),
    store_get questions' question = Ok d'
    /\ current_retention_rate d' = Some x
    /\ 1 / 5 <= x <= 1
    /\ ((forall r : rating_entry, In r (ratings d') -> (4 <= rating_value r)%Z) ->
        x = 1).
Proof.
intros Hget Hold Hnew Hrev.
destruct (review_single_question_store _ _ _ _ _ _ _ Hget Hrev)
  as (avg & r & s & n & _ & _ & _ & _ & ->).
do 2 eexists. split; [eapply store_get_set, Hget |].
unfold reviewed. simpl. split; [reflexivity |].
rewrite retention_rate_as_specified.
apply observed_retention_rate_range.
- destruct (ratings d); discriminate.
- intros r0 Hin. apply in_app_or in Hin as [Hin | [<- | []]];
    [apply Hold, Hin | exact Hnew].
Qed.

Lemma review_retention_rate_range_witness :
  exists (questions' : store) (d' : details) (x : R),
    review_single_question prep_off (morning_review 2) "Two Sum" 20001%Z one_question
    = Ok (true, questions')
    /\ store_get questions' "Two Sum" = Ok d'
    /\ current_retention_rate d' = Some x
    /\ 1 / 5 <= x <= 1
    /\ ((forall r : rating_entry, In r (ratings d') -> (4 <= rating_value r)%Z) ->
        x = 1).
Proof.
destruct (review_single_question_defined
            prep_off (morning_review 2) "Two Sum" 20001%Z one_question two_sum)
  as [questions' Hrev]; try reflexivity; simpl; try lra; try lia.
destruct (review_retention_rate_range
            prep_off (morning_review 2) "Two Sum" 20001%Z one_question questions'
            two_sum eq_refl) as (d' & x & H).
- intros r [].
- simpl. lia.
- exact Hrev.
- exists questions', d', x. split; [exact Hrev | exact H].
Defined.

Section Unreviewed.

Lemma StronglySorted_filter {A : Type} (R : A -> A -> Prop) (f : A -> bool) (l : list A) :
  StronglySorted R l -> StronglySorted R (filter f l).
Proof.
induction 1 as [| x l Hl IH Hx]; simpl; [constructor |].
destruct (f x); [| exact IH].
constructor; [exact IH |].
apply Forall_forall. intros y Hy. apply filter_In in Hy as [Hy _].
rewrite Forall_forall in Hx. apply Hx, Hy.
Qed.

Lemma In_sorted_questions
      (company : option string) (today : date) (questions : store)
      (q : string * details) :
  In q (sorted_questions company today questions) <->
  In q questions /\ selected company today (snd q) = true.
Proof.
unfold sorted_questions, filtered_questions.
rewrite <- (filter_In (fun q0 => selected company today (snd q0)) q questions).
split; intros Hin.
- eapply Permutation_in; [apply sorted_permutation | exact Hin].
- eapply Permutation_in; [apply Permutation_sym, sorted_permutation | exact Hin].
Qed.

Lemma filter_swap {A : Type} (f g : A -> bool) (l : list A) :
  filter f (filter g l) = filter g (filter f l).
Proof.
induction l as [| x l IH]; simpl; [reflexivity |].
destruct (f x) eqn:Hf; destruct (g x) eqn:Hg; simpl;
  rewrite ?Hf, ?Hg, IH; reflexivity.
Qed.

End Unreviewed.

(** X11.  The questions that [review_questions] offers for review are
    exactly those with [next_review <= today] and [last_reviewed] another
    day than today (and, when a company is given, with that company among
    their tags); they come in the order of the listing, by the ordinal of
    their category. *)
Theorem unreviewed_questions_due
        (company : option string) (today : date) (questions : store) :
  (forall q : string * details,
      In q (unreviewed_questions company today questions) <->
      In q questions
      /\ (match company with
          | None => True
          | Some c => In c (company_tags (snd q))
          end)
      /\ (next_review (snd q) <= today)%Z
      /\ last_reviewed (snd q) <> today)
  /\ StronglySorted (key_le sort_key) (unreviewed_questions company today questions)
  /\ (forall k : Z,
         filter (has_key sort_key k) (unreviewed_questions company today questions)
         = filter (has_key sort_key k)
                  (filter (fun q => negb (last_reviewed (snd q) =? today)%Z)
                          (filter (fun q => selected company today (snd q))
                                  questions))).
Proof.
split; [| split].
- intros q. unfold unreviewed_questions.
  rewrite filter_In, In_sorted_questions, selected_spec, negb_true_iff, Z.eqb_neq.
  tauto.
- apply StronglySorted_filter, (sorted_ordered sort_key).
- intros k. unfold unreviewed_questions, sorted_questions, filtered_questions.
  rewrite filter_swap, (sorted_stable sort_key).
  apply filter_swap.
Qed.

(** X12.  A question reviewed today is not offered again today, whatever
    the company asked for; it stays in the listing of today (whenever the
    company filter lets it through), as reviewed. *)
Theorem reviewed_not_offered_again
        (cfg : config) (inp : review_input) (question : string) (today : date)
        (questions questions' : store) (d : details) :
  NoDup (map fst questions) ->
  store_get questions question = Ok d ->
  review_single_question cfg inp question today questions = Ok (true, questions') ->
  (forall (company : option string) (q : string * details),
      In q (unreviewed_questions company today questions') -> fst q <> question)
  /\ exists d' : details,
      store_get questions' question = Ok d'
      /\ last_reviewed d' = today
      /\ forall company : option string,
          (match company with
           | None => True
           | Some c => In c (company_tags d)
           end) ->
          In (question, d') (sorted_questions company today questions').
Proof.
intros Hnd Hget Hrev.
destruct (review_single_question_store _ _ _ _ _ _ _ Hget Hrev)
  as (avg & r & s & n & _ & _ & _ & _ & ->).
split.
- intros company [k x] Hin Hk. simpl in Hk. subst k.
  unfold unreviewed_questions in Hin.
  apply filter_In in Hin as [Hin Hlast].
  apply In_sorted_questions in Hin as [Hin _].
  apply In_store_set in Hin as [[_ ->] | [Hne _]]; [| congruence | exact Hnd].
  simpl in Hlast. rewrite Z.eqb_refl in Hlast. discriminate Hlast.
- eexists. split; [eapply store_get_set, Hget |].
  split; [reflexivity |].
  intros company Hcompany. apply In_sorted_questions. split.
  + apply store_get_In. eapply store_get_set, Hget.
  + apply selected_spec. simpl. split; [exact Hcompany | right; reflexivity].
Qed.

Lemma reviewed_not_offered_again_witness :
  exists questions' : store,
    review_single_question
      prep_off (morning_review 3) "Two Sum" 20001%Z five_questions
    = Ok (true, questions')
    /\ (forall (company : option string) (q : string * details),
           In q (unreviewed_questions company 20001%Z questions') ->
           fst q <> "Two Sum"%string)
    /\ exists d' : details,
        store_get questions' "Two Sum" = Ok d'
        /\ last_reviewed d' = 20001%Z
        /\ forall company : option string,
            (match company with
             | None => True
             | Some c => In c (company_tags (question_of Arrays 19999%Z 20001%Z))
             end) ->
            In ("Two Sum"%string, d') (sorted_questions company 20001%Z questions').
Proof.
destruct (review_single_question_defined
            prep_off (morning_review 3) "Two Sum" 20001%Z five_questions
            (question_of Arrays 19999%Z 20001%Z))
  as [questions' Hrev]; try reflexivity; simpl; try lra; try lia.
exists questions'. split; [exact Hrev |].
apply (reviewed_not_offered_again
         prep_off (morning_review 3) "Two Sum" 20001%Z five_questions questions'
         (question_of Arrays 19999%Z 20001%Z)).
- simpl. repeat constructor; simpl; intuition discriminate.
- reflexivity.
- exact Hrev.
Defined.

(** ** The statistics *)

Section Statistics.

Lemma In_truthy_rates (questions : store) (x : R) :
  In x (truthy_rates questions) <->
  x <> 0 /\ exists q : string * details,
      In q questions /\ current_retention_rate (snd q) = Some x.
Proof.
induction questions as [| [k d] rest IH]; simpl.
- split; [contradiction | intros (_ & q & [] & _)].
- destruct (current_retention_rate d) as [y |] eqn:Hrate.
  + destruct (Req_dec_T y 0) as [Hy | Hy].
    * rewrite IH. split.
      -- intros (Hx & q & Hq & Hqx). split; [exact Hx |].
         exists q. split; [right; exact Hq | exact Hqx].
      -- intros (Hx & q & [<- | Hq] & Hqx).
         ++ simpl in Hqx. rewrite Hrate in Hqx. injection Hqx as ->. contradiction.
         ++ split; [exact Hx |]. exists q. split; assumption.
    * simpl. rewrite IH. split.
      -- intros [<- | (Hx & q & Hq & Hqx)].
         ++ split; [exact Hy |]. exists (k, d). split; [left; reflexivity | exact Hrate].
         ++ split; [exact Hx |]. exists q. split; [right; exact Hq | exact Hqx].
      -- intros (Hx & q & [<- | Hq] & Hqx).
         ++ simpl in Hqx. rewrite Hrate in Hqx. injection Hqx as ->. left. reflexivity.
         ++ right. split; [exact Hx |]. exists q. split; assumption.
  + rewrite IH. split.
    * intros (Hx & q & Hq & Hqx). split; [exact Hx |].
      exists q. split; [right; exact Hq | exact Hqx].
    * intros (Hx & q & [<- | Hq] & Hqx).
      -- simpl in Hqx. rewrite Hrate in Hqx. discriminate Hqx.
      -- split; [exact Hx |]. exists q. split; assumption.
Qed.

Lemma view_statistics_mean (questions : store) :
  truthy_rates questions <> [] ->
  view_statistics questions = Ok (mean (truthy_rates questions)).
Proof.
intros Hne. unfold view_statistics, mean.
rewrite py_div_defined.
- rewrite fold_left_Rplus_shift, Rplus_0_l. reflexivity.
- apply not_0_IZR.
  destruct (truthy_rates questions); [contradiction Hne; reflexivity | simpl; lia].
Qed.

End Statistics.

(** X13.  [view_statistics] raises [ZeroDivisionError] when no question has
    a retention rate other than [None] and zero (so on an empty collection,
    and on one never reviewed); as soon as one question has such a rate it
    returns the mean of these rates. *)
Theorem view_statistics_defined (questions : store) :
  ((forall q : string * details,
       In q questions ->
       current_retention_rate (snd q) = None
       \/ current_retention_rate (snd q) = Some 0) ->
   view_statistics questions = Raise ZeroDivisionError)
  /\ (forall (q : string * details) (x : R),
         In q questions ->
         current_retention_rate (snd q) = Some x ->
         x <> 0 ->
         view_statistics questions = Ok (mean (truthy_rates questions)))
  /\ (forall x : R,
         In x (truthy_rates questions) <->
         x <> 0 /\ exists q : string * details,
             In q questions /\ current_retention_rate (snd q) = Some x).
Proof.
split; [| split].
- intros Hall.
  assert (truthy_rates questions = []) as Hnil.
  { destruct (truthy_rates questions) as [| x l] eqn:Hrates; [reflexivity |].
    assert (In x (truthy_rates questions)) as Hin by (rewrite Hrates; left; reflexivity).
    apply In_truthy_rates in Hin as (Hx & q & Hq & Hqx).
    destruct (Hall q Hq) as [Hnone | Hzero]; rewrite Hqx in *.
    - discriminate Hnone.
    - injection Hzero as ->. contradiction Hx; reflexivity. }
  unfold view_statistics. rewrite Hnil. simpl. unfold py_div.
  destruct (Req_dec_T 0 0) as [_ | H]; [reflexivity | contradiction H; reflexivity].
- intros q x Hq Hqx Hx. apply view_statistics_mean.
  intros Hnil.
  assert (In x (truthy_rates questions)) as Hin
      by (apply In_truthy_rates; split; [exact Hx | exists q; split; assumption]).
  rewrite Hnil in Hin. exact Hin.
- apply In_truthy_rates.
Qed.

(** X14.  After a completed review in which every rating on record is at
    least 1, [view_statistics] does not raise: it returns the mean of the
    rates. *)
Theorem statistics_after_review
        (cfg : config) (inp : review_input) (question : string) (today : date)
        (questions questions' : store) (d : details) :
  store_get questions question = Ok d ->
  (forall r : rating_entry, In r (ratings d) -> (1 <= rating_value r)%Z) ->
  (1 <= rating_in inp)%Z ->
  review_single_question cfg inp question today questions = Ok (true, questions') ->
  view_statistics questions' = Ok (mean (truthy_rates questions'))
  /\ truthy_rates questions' <> [].
Proof.
intros Hget Hold Hnew Hrev.
destruct (review_single_question_store _ _ _ _ _ _ _ Hget Hrev)
  as (avg & r & s & n & _ & _ & _ & _ & ->).
match goal with
| |- context [store_set questions question ?x] => set (d' := x)
end.
assert (In (question, d') (store_set questions question d')) as Hin
    by (apply store_get_In; eapply store_get_set, Hget).
assert (exists x : R, current_retention_rate d' = Some x /\ 1 / 5 <= x)
  as (x & Hx & Hlo).
{ eexists. split; [reflexivity |].
  rewrite retention_rate_as_specified.
  apply observed_retention_rate_range.
  - destruct (ratings d); discriminate.
  - intros r0 Hr0. apply in_app_or in Hr0 as [Hr0 | [<- | []]];
      [apply Hold, Hr0 | exact Hnew]. }
assert (truthy_rates (store_set questions question d') <> []) as Hne.
{ intros Hnil.
  assert (In x (truthy_rates (store_set questions question d'))) as Hxin.
  { apply In_truthy_rates. split; [lra |].
    exists (question, d'). split; [exact Hin | exact Hx]. }
  rewrite Hnil in Hxin. exact Hxin. }
split; [apply view_statistics_mean, Hne | exact Hne].
Qed.

Lemma statistics_after_review_witness :
  exists questions' : store,
    review_single_question prep_off (morning_review 4) "Two Sum" 20001%Z one_question
    = Ok (true, questions')
    /\ view_statistics questions' = Ok (mean (truthy_rates questions'))
    /\ truthy_rates questions' <> [].
Proof.
destruct (review_single_question_defined
            prep_off (morning_review 4) "Two Sum" 20001%Z one_question two_sum)
  as [questions' Hrev]; try reflexivity; simpl; try lra; try lia.
exists questions'. split; [exact Hrev |].
apply (statistics_after_review
         prep_off (morning_review 4) "Two Sum" 20001%Z one_question questions'
         two_sum eq_refl).
- intros r [].
- simpl. lia.
- exact Hrev.
Defined.

(** ** The whole session *)

Section Session.

Variables (cfg : config) (inputs : string -> review_input) (today : date).

(** The loop of [review_questions]: an entry of the collection it leaves is
    an entry of before, declined if it was offered, or was reviewed today. *)
Lemma review_each_entries (todo : list (string * details)) (questions questions' : store) :
  NoDup (map fst questions) ->
  review_each cfg inputs today todo questions = Ok questions' ->
  map fst questions' = map fst questions
  /\ forall (k : string) (x : details),
      In (k, x) questions' ->
      (In (k, x) questions
       /\ (In k (map fst todo) -> has_n (start_problem (inputs k)) = true))
      \/ last_reviewed x = today.
Proof.
revert questions. induction todo as [| [q dq] rest IH]; intros questions Hnd Hrun.
- simpl in Hrun. injection Hrun as <-. split; [reflexivity |].
  intros k x Hin. left. split; [exact Hin | intros []].
- simpl in Hrun. apply bind_ok_inv in Hrun as [[b questions1] [Hrev Hrun]].
  simpl in Hrun.
  destruct (review_single_question_cases _ _ _ _ _ _ _ Hrev)
    as [(-> & -> & Hno) | (-> & _ & d & Hget)].
  + destruct (IH questions Hnd Hrun) as [Hkeys Hent].
    split; [exact Hkeys |].
    intros k x Hin. destruct (Hent k x Hin) as [[Hold Hdecl] | Hdone];
      [left | right; exact Hdone].
    split; [exact Hold |].
    intros [<- | Hk]; [exact Hno | apply Hdecl, Hk].
  + destruct (review_single_question_store _ _ _ _ _ _ _ Hget Hrev)
      as (avg & r & s & n & _ & _ & _ & _ & Heq).
    subst questions1.
    match type of Hrun with
    | context [store_set questions q ?y] => set (d' := y) in *
    end.
    assert (NoDup (map fst (store_set questions q d'))) as Hnd1
        by (rewrite store_set_keys; exact Hnd).
    destruct (IH _ Hnd1 Hrun) as [Hkeys Hent].
    split; [rewrite Hkeys; apply store_set_keys |].
    intros k x Hin. destruct (Hent k x Hin) as [[Hold Hdecl] | Hdone];
      [| right; exact Hdone].
    apply In_store_set in Hold as [[_ ->] | [Hne Hold]]; [| | exact Hnd].
    * right. reflexivity.
    * left. split; [exact Hold |].
      intros [Hq | Hk]; [simpl in Hq; congruence | apply Hdecl, Hk].
Qed.

End Session.

(** X15.  When [review_questions] has gone through, the collection has the
    names it had, and the only questions still to review that day are
    questions that were offered and declined.  If none was declined,
    nothing is left: a second call that day reviews nothing and changes
    nothing. *)
Theorem session_leaves_only_declined
        (cfg : config) (now : Z) (inputs : string -> review_input)
        (company : option string)
        (questions questions' : store)
        (listing : option (list (string * details))) :
  NoDup (map fst questions) ->
  review_questions cfg now inputs company questions = Ok (listing, questions') ->
  map fst questions' = map fst questions
  /\ (forall q : string * details,
         In q (unreviewed_questions company (local_date now) questions') ->
         In q (unreviewed_questions company (local_date now) questions)
         /\ has_n (start_problem (inputs (fst q))) = true)
  /\ ((forall q : string * details,
          In q (unreviewed_questions company (local_date now) questions) ->
          has_n (start_problem (inputs (fst q))) = false) ->
      forall inputs' : string -> review_input,
        review_questions cfg now inputs' company questions' = Ok (None, questions')).
Proof.
intros Hnd Hrun.
assert (map fst questions' = map fst questions
        /\ forall (k : string) (x : details),
            In (k, x) questions' ->
            (In (k, x) questions
             /\ (In k (map fst (unreviewed_questions company (local_date now) questions)) ->
                 has_n (start_problem (inputs k)) = true))
            \/ last_reviewed x = local_date now) as [Hkeys Hent].
{ unfold review_questions in Hrun. cbv zeta in Hrun.
  destruct (unreviewed_questions company (local_date now) questions)
    as [| q0 todo] eqn:Htodo.
  - injection Hrun as _ <-. split; [reflexivity |].
    intros k x Hin. left. split; [exact Hin | intros []].
  - apply bind_ok_inv in Hrun as [questions1 [Heach Hrun]].
    injection Hrun as _ <-.
    apply (review_each_entries _ _ _ _ _ _ Hnd Heach). }
assert (forall q : string * details,
           In q (unreviewed_questions company (local_date now) questions') ->
           In q (unreviewed_questions company (local_date now) questions)
           /\ has_n (start_problem (inputs (fst q))) = true) as Hleft.
{ intros [k x] Hin. unfold unreviewed_questions in Hin.
  apply filter_In in Hin as [Hin Hlast].
  apply In_sorted_questions in Hin as [Hin Hsel].
  simpl in Hlast, Hsel.
  destruct (Hent k x Hin) as [[Hold Hdecl] | Hdone].
  - assert (In (k, x) (unreviewed_questions company (local_date now) questions))
      as Hun.
    { unfold unreviewed_questions. apply filter_In. split; [| exact Hlast].
      apply In_sorted_questions. split; [exact Hold | exact Hsel]. }
    split; [exact Hun |]. simpl. apply Hdecl.
    apply (in_map fst) in Hun. exact Hun.
  - rewrite Hdone, Z.eqb_refl in Hlast. discriminate Hlast. }
split; [exact Hkeys |]. split; [exact Hleft |].
intros Hall inputs'.
assert (unreviewed_questions company (local_date now) questions' = []) as Hnone.
{ destruct (unreviewed_questions company (local_date now) questions')
    as [| q0 todo] eqn:Htodo; [reflexivity |].
  exfalso.
  destruct (Hleft q0) as [Hun Hno]; [left; reflexivity |].
  rewrite (Hall q0 Hun) in Hno. discriminate Hno. }
unfold review_questions. cbv zeta. rewrite Hnone. reflexivity.
Qed.

Lemma session_leaves_only_declined_witness :
  exists (listing : option (list (string * details))) (questions' : store),
    review_questions
      prep_off (clock_at 20001 9 0) (fun _ => morning_review 3) None one_question
    = Ok (listing, questions')
    /\ map fst questions' = map fst one_question
    /\ (forall q : string * details,
           In q (unreviewed_questions
                   None (local_date (clock_at 20001 9 0)) questions') ->
           In q (unreviewed_questions
                   None (local_date (clock_at 20001 9 0)) one_question)
           /\ has_n (start_problem (morning_review 3)) = true)
    /\ ((forall q : string * details,
            In q (unreviewed_questions
                    None (local_date (clock_at 20001 9 0)) one_question) ->
            has_n (start_problem (morning_review 3)) = false) ->
        forall inputs' : string -> review_input,
          review_questions prep_off (clock_at 20001 9 0) inputs' None questions'
          = Ok (None, questions')).
Proof.
destruct (review_single_question_defined
            prep_off (morning_review 3) "Two Sum" 20001%Z one_question two_sum)
  as [questions' Hrev]; try reflexivity; simpl; try lra; try lia.
assert (review_questions
          prep_off (clock_at 20001 9 0) (fun _ => morning_review 3) None one_question
        = Ok (Some (sorted_questions None 20001%Z one_question), questions'))
  as Hrun.
{ unfold review_questions. cbv zeta.
  change (local_date (clock_at 20001 9 0)) with 20001%Z.
  change (unreviewed_questions None 20001%Z one_question)
    with [("Two Sum"%string, two_sum)].
  cbn [review_each]. rewrite Hrev. reflexivity. }
do 2 eexists. split; [exact Hrun |].
apply (session_leaves_only_declined
         prep_off (clock_at 20001 9 0) (fun _ => morning_review 3) None
         one_question questions'
         (Some (sorted_questions None 20001%Z one_question))).
- simpl. repeat constructor. intros [].
- exact Hrun.
Defined.

(** ** Listing all questions *)

Section Grouping.

Lemma category_eqb_eq (a b : category) : category_eqb a b = true <-> a = b.
Proof.
unfold category_eqb. rewrite Z.eqb_eq. split; [| intros ->; reflexivity].
destruct a, b; simpl; intros H; try reflexivity; discriminate H.
Qed.

Lemma category_eqb_sym (a b : category) : category_eqb a b = category_eqb b a.
Proof. unfold category_eqb. apply Z.eqb_sym. Qed.

Lemma group_of_group_add
      (groups : list (category * list (string * details)))
      (q : string * details) (c : category) :
  group_of (group_add groups q) c
  = if of_type c q then group_of groups c ++ [q] else group_of groups c.
Proof.
unfold of_type.
induction groups as [| [c0 qs] rest IH]; simpl.
- rewrite (category_eqb_sym (problem_type (snd q)) c).
  destruct (category_eqb c (problem_type (snd q))); reflexivity.
- destruct (category_eqb c0 (problem_type (snd q))) eqn:H0; simpl.
  + apply category_eqb_eq in H0. subst c0.
    rewrite (category_eqb_sym (problem_type (snd q)) c).
    destruct (category_eqb c (problem_type (snd q))); reflexivity.
  + destruct (category_eqb c0 c) eqn:Hc; [| exact IH].
    apply category_eqb_eq in Hc. subst c0. rewrite H0. reflexivity.
Qed.

Lemma group_of_fold
      (questions : store) (groups : list (category * list (string * details)))
      (c : category) :
  group_of (fold_left group_add questions groups) c
  = group_of groups c ++ filter (of_type c) questions.
Proof.
revert groups. induction questions as [| q rest IH]; intros groups; simpl.
- rewrite app_nil_r. reflexivity.
- rewrite IH, group_of_group_add.
  destruct (of_type c q); [rewrite <- app_assoc |]; reflexivity.
Qed.

Lemma group_add_keys
      (groups : list (category * list (string * details))) (q : string * details) :
  NoDup (map fst groups) ->
  NoDup (map fst (group_add groups q))
  /\ forall c : category,
      In c (map fst (group_add groups q)) <->
      In c (map fst groups) \/ c = problem_type (snd q).
Proof.
induction groups as [| [c0 qs] rest IH]; simpl; intros Hnd.
- split; [repeat constructor; intros [] |].
  intros c. split; [intros [<- | []]; right; reflexivity | intros [[] | ->]; left; reflexivity].
- inversion Hnd as [| ? ? Hc0 Hrest]; subst.
  destruct (category_eqb c0 (problem_type (snd q))) eqn:H0; simpl.
  + apply category_eqb_eq in H0. split; [exact Hnd |].
    intros c. split; [intros H; left; exact H |].
    intros [H | ->]; [exact H | left; exact H0].
  + destruct (IH Hrest) as [Hnd' Hin'].
    assert (c0 <> problem_type (snd q)) as Hne.
    { intros Heq. apply category_eqb_eq in Heq. congruence. }
    split.
    * constructor; [| exact Hnd'].
      intros Hin. apply Hin' in Hin as [Hin | Heq]; [apply Hc0, Hin | congruence].
    * intros c. rewrite Hin'. tauto.
Qed.

Lemma grouped_keys (questions : store) (groups : list (category * list (string * details))) :
  NoDup (map fst groups) ->
  NoDup (map fst (fold_left group_add questions groups))
  /\ forall c : category,
      In c (map fst (fold_left group_add questions groups)) <->
      In c (map fst groups)
      \/ exists q : string * details, In q questions /\ problem_type (snd q) = c.
Proof.
revert groups. induction questions as [| q rest IH]; intros groups Hnd; simpl.
- split; [exact Hnd |]. intros c. split; [intros H; left; exact H |].
  intros [H | (q & [] & _)]. exact H.
- destruct (group_add_keys groups q Hnd) as [Hnd1 Hin1].
  destruct (IH _ Hnd1) as [Hnd2 Hin2].
  split; [exact Hnd2 |].
  intros c. rewrite Hin2, Hin1. split.
  + intros [[H | ->] | (q0 & Hq0 & Hc)].
    * left. exact H.
    * right. exists q. split; [left; reflexivity | reflexivity].
    * right. exists q0. split; [right; exact Hq0 | exact Hc].
  + intros [H | (q0 & [<- | Hq0] & Hc)].
    * left. left. exact H.
    * left. right. symmetry. exact Hc.
    * right. exists q0. split; assumption.
Qed.

End Grouping.

Section SortedUnique.

Context {A : Type} (key : A -> Z).

Lemma filter_has_key_nil (k : Z) (l : list A) :
  Forall (fun a => key a <> k) l -> filter (has_key key k) l = [].
Proof.
induction 1 as [| a l Ha Hl IH]; simpl; [reflexivity |].
unfold has_key at 1. apply Z.eqb_neq in Ha. rewrite Ha. exact IH.
Qed.

Lemma StronglySorted_app (R : A -> A -> Prop) (l1 l2 : list A) :
  StronglySorted R l1 -> StronglySorted R l2 ->
  (forall x y : A, In x l1 -> In y l2 -> R x y) ->
  StronglySorted R (l1 ++ l2).
Proof.
induction 1 as [| x l1 Hl1 IH Hx]; intros Hl2 Hcross; simpl; [exact Hl2 |].
constructor.
- apply IH; [exact Hl2 |]. intros a b Ha Hb. apply Hcross; [right; exact Ha | exact Hb].
- apply Forall_app. split; [exact Hx |].
  apply Forall_forall. intros y Hy. apply Hcross; [left; reflexivity | exact Hy].
Qed.

Lemma filter_has_key_cons (k : Z) (a : A) (l : list A) :
  filter (has_key key k) (a :: l)
  = if (key a =? k)%Z then a :: filter (has_key key k) l
    else filter (has_key key k) l.
Proof. reflexivity. Qed.

(** A list ordered by its keys is known by the elements of each key. *)
Lemma sorted_unique (l1 l2 : list A) :
  StronglySorted (key_le key) l1 ->
  StronglySorted (key_le key) l2 ->
  (forall k : Z, filter (has_key key k) l1 = filter (has_key key k) l2) ->
  l1 = l2.
Proof.
intros H1. revert l2.
induction H1 as [| x l1 Hl1 IH Hx]; intros l2 H2 Hsame.
- destruct l2 as [| y l2]; [reflexivity |].
  specialize (Hsame (key y)).
  rewrite filter_has_key_cons, Z.eqb_refl in Hsame. discriminate Hsame.
- destruct l2 as [| y l2].
  + specialize (Hsame (key x)).
    rewrite filter_has_key_cons, Z.eqb_refl in Hsame. discriminate Hsame.
  + inversion H2 as [| ? ? Hl2 Hy]; subst.
    assert (key x = key y) as Hxy.
    { destruct (Z.lt_trichotomy (key x) (key y)) as [Hlt | [Heq | Hgt]];
        [| exact Heq |]; exfalso.
      - specialize (Hsame (key x)).
        rewrite !filter_has_key_cons, Z.eqb_refl in Hsame.
        assert ((key y =? key x)%Z = false) as Hne by (apply Z.eqb_neq; lia).
        rewrite Hne in Hsame.
        rewrite (filter_has_key_nil (key x) l2) in Hsame; [discriminate Hsame |].
        eapply Forall_impl; [| exact Hy].
        intros a Ha. unfold key_le in Ha. lia.
      - specialize (Hsame (key y)).
        rewrite !filter_has_key_cons, Z.eqb_refl in Hsame.
        assert ((key x =? key y)%Z = false) as Hne by (apply Z.eqb_neq; lia).
        rewrite Hne in Hsame.
        rewrite (filter_has_key_nil (key y) l1) in Hsame; [discriminate Hsame |].
        eapply Forall_impl; [| exact Hx].
        intros a Ha. unfold key_le in Ha. lia. }
    assert (x = y /\ forall k : Z,
               filter (has_key key k) l1 = filter (has_key key k) l2) as [-> Htails].
    { split.
      - specialize (Hsame (key x)).
        rewrite !filter_has_key_cons, <- Hxy, Z.eqb_refl in Hsame.
        injection Hsame as Hhead _. exact Hhead.
      - intros k. specialize (Hsame k).
        rewrite !filter_has_key_cons, <- Hxy in Hsame.
        destruct (key x =? k)%Z; [injection Hsame as _ Ht; exact Ht | exact Hsame]. }
    f_equal. apply IH; assumption.
Qed.

End SortedUnique.

Section ListAll.

Variable questions : store.

Lemma of_type_has_key (c : category) (q : string * details) :
  of_type c q = has_key sort_key (difficulty_order c) q.
Proof. unfold of_type, category_eqb, has_key, sort_key. apply Z.eqb_sym. Qed.

Lemma group_of_grouped (c : category) :
  group_of (grouped_questions questions) c
  = filter (has_key sort_key (difficulty_order c)) questions.
Proof.
unfold grouped_questions. rewrite group_of_fold. simpl.
apply filter_ext. intros q. apply of_type_has_key.
Qed.

Lemma same_key_sorted {A : Type} (key : A -> Z) (k : Z) (l : list A) :
  Forall (fun a => key a = k) l -> StronglySorted (key_le key) l.
Proof.
induction 1 as [| a l Ha Hl IH]; constructor; [exact IH |].
eapply Forall_impl; [| exact Hl].
intros b Hb. unfold key_le. cbv beta in *. lia.
Qed.

Lemma Forall_filter_has_key {A : Type} (key : A -> Z) (k : Z) (l : list A) :
  Forall (fun a => key a = k) (filter (has_key key k) l).
Proof.
apply Forall_forall. intros a Ha. apply filter_In in Ha as [_ Ha].
apply Z.eqb_eq, Ha.
Qed.

(** The groups, taken in the order of their ordinals, are in order. *)
Lemma groups_in_order (cs : list category) :
  StronglySorted (key_le difficulty_order) cs ->
  StronglySorted
    (key_le sort_key)
    (List.concat
       (map (fun c => filter (has_key sort_key (difficulty_order c)) questions) cs)).
Proof.
induction 1 as [| c cs Hcs IH Hc]; simpl; [constructor |].
apply StronglySorted_app.
- eapply same_key_sorted, Forall_filter_has_key.
- exact IH.
- intros x y Hx Hy.
  apply filter_In in Hx as [_ Hx]. apply Z.eqb_eq in Hx.
  apply in_concat in Hy as (l & Hl & Hy).
  apply in_map_iff in Hl as (c' & <- & Hc').
  apply filter_In in Hy as [_ Hy]. apply Z.eqb_eq in Hy.
  rewrite Forall_forall in Hc. specialize (Hc c' Hc').
  unfold key_le in *. lia.
Qed.

Lemma filter_filter_has_key {A : Type} (key : A -> Z) (k k' : Z) (l : list A) :
  filter (has_key key k) (filter (has_key key k') l)
  = if (k' =? k)%Z then filter (has_key key k) l else [].
Proof.
destruct (k' =? k)%Z eqn:Hk.
- apply Z.eqb_eq in Hk. subst k'.
  induction l as [| a l IH]; simpl; [reflexivity |].
  destruct (has_key key k a) eqn:Ha; simpl; rewrite ?Ha, IH; reflexivity.
- apply Z.eqb_neq in Hk. apply filter_has_key_nil.
  eapply Forall_impl; [| apply Forall_filter_has_key].
  intros a Ha. cbv beta in *. congruence.
Qed.

(** The questions of one ordinal among the groups of distinct ordinals. *)
Lemma groups_of_key (k : Z) (cs : list category) :
  NoDup (map difficulty_order cs) ->
  filter (has_key sort_key k)
         (List.concat
            (map (fun c => filter (has_key sort_key (difficulty_order c)) questions)
                 cs))
  = if existsb (fun c => (difficulty_order c =? k)%Z) cs
    then filter (has_key sort_key k) questions
    else [].
Proof.
induction cs as [| c cs IH]; simpl; intros Hnd; [reflexivity |].
inversion Hnd as [| ? ? Hc Hrest]; subst.
rewrite filter_app, filter_filter_has_key, (IH Hrest).
destruct (difficulty_order c =? k)%Z eqn:Hk; simpl; [| reflexivity].
apply Z.eqb_eq in Hk.
destruct (existsb (fun c0 => (difficulty_order c0 =? k)%Z) cs) eqn:Hex.
- exfalso. apply existsb_exists in Hex as (c' & Hc' & Hk').
  apply Z.eqb_eq in Hk'. apply Hc. rewrite Hk, <- Hk'.
  apply in_map, Hc'.
- apply app_nil_r.
Qed.

Lemma difficulty_order_NoDup (cs : list category) :
  NoDup cs -> NoDup (map difficulty_order cs).
Proof.
induction 1 as [| c cs Hc Hcs IH]; simpl; constructor; [| exact IH].
intros Hin. apply in_map_iff in Hin as (c' & Heq & Hc').
assert (c' = c) as -> by (apply category_eqb_eq, Z.eqb_eq, Heq).
contradiction.
Qed.

End ListAll.

Example list_all_questions_five :
  option_map (map (fun g => (fst g, map fst (snd g))))
             (list_all_questions five_questions)
  = Some [(Arrays, ["Two Sum"; "3Sum"; "Max Subarray"]%string);
          (LinkedList, ["LRU Cache"%string]);
          (DP, ["Coin Change"%string])].
Proof. reflexivity. Qed.

(** X16.  [list_all_questions] prints every question once: the problem
    types that occur, each once, by their ordinals, and under each its
    questions (there is one at least) in the order of the collection.  Read
    from top to bottom this is the collection sorted by the ordinal, as the
    listing of a review has it.  Only an empty collection gives the
    message instead. *)
Theorem list_all_questions_order (questions : store) :
  (list_all_questions questions = None <-> questions = [])
  /\ forall listing : list (category * list (string * details)),
      list_all_questions questions = Some listing ->
      printed listing = sorted sort_key questions
      /\ StronglySorted (key_le difficulty_order) (map fst listing)
      /\ NoDup (map fst listing)
      /\ forall (c : category) (qs : list (string * details)),
          In (c, qs) listing ->
          qs <> [] /\ qs = filter (of_type c) questions.
Proof.
split.
- destruct questions; simpl; split; intros H; try reflexivity; discriminate H.
- intros listing Hlist.
  assert (listing
          = map (fun c => (c, group_of (grouped_questions questions) c))
                (sorted_problem_types questions)) as ->.
  { destruct questions; simpl in Hlist; [discriminate Hlist |].
    injection Hlist as <-. reflexivity. }
  clear Hlist.
  destruct (grouped_keys questions [] (NoDup_nil _)) as [Hnd Hkeys].
  fold (grouped_questions questions) in Hnd, Hkeys.
  assert (Permutation (sorted_problem_types questions)
                      (map fst (grouped_questions questions))) as Hperm
      by apply sorted_permutation.
  assert (NoDup (sorted_problem_types questions)) as Hnd'
      by (eapply Permutation_NoDup; [apply Permutation_sym, Hperm | exact Hnd]).
  assert (StronglySorted (key_le difficulty_order) (sorted_problem_types questions))
    as Hsorted by apply sorted_ordered.
  assert (map fst
              (map (fun c => (c, group_of (grouped_questions questions) c))
                   (sorted_problem_types questions))
          = sorted_problem_types questions) as Hfst.
  { rewrite map_map. simpl. apply map_id. }
  split; [| split; [| split]].
  + unfold printed. rewrite map_map. simpl.
    rewrite (map_ext _ _ (group_of_grouped questions)).
    apply (sorted_unique sort_key).
    * apply groups_in_order, Hsorted.
    * apply sorted_ordered.
    * intros k. rewrite (sorted_stable sort_key).
      rewrite groups_of_key by (apply difficulty_order_NoDup, Hnd').
      destruct (existsb (fun c => (difficulty_order c =? k)%Z)
                        (sorted_problem_types questions)) eqn:Hex;
        [reflexivity |].
      symmetry. apply filter_has_key_nil, Forall_forall.
      intros q Hq Hk.
      assert (In (problem_type (snd q)) (sorted_problem_types questions)) as Hin.
      { eapply Permutation_in; [apply Permutation_sym, Hperm |].
        apply Hkeys. right. exists q. split; [exact Hq | reflexivity]. }
      assert (existsb (fun c => (difficulty_order c =? k)%Z)
                      (sorted_problem_types questions) = true) as Htrue.
      { apply existsb_exists. exists (problem_type (snd q)).
        split; [exact Hin | apply Z.eqb_eq, Hk]. }
      congruence.
  + rewrite Hfst. exact Hsorted.
  + rewrite Hfst. exact Hnd'.
  + intros c qs Hin. apply in_map_iff in Hin as (c' & Heq & Hc').
    injection Heq as -> <-.
    assert (group_of (grouped_questions questions) c
            = filter (of_type c) questions) as Hgroup
        by (unfold grouped_questions; rewrite group_of_fold; reflexivity).
    split; [| exact Hgroup].
    rewrite Hgroup.
    assert (In c (map fst (grouped_questions questions))) as Hc
        by (eapply Permutation_in; [exact Hperm | exact Hc']).
    apply Hkeys in Hc as [[] | (q & Hq & Hqc)].
    intros Hnil.
    assert (In q (filter (of_type c) questions)) as Hqin.
    { apply filter_In. split; [exact Hq |].
      unfold of_type. apply category_eqb_eq. symmetry. exact Hqc. }
    rewrite Hnil in Hqin. exact Hqin.
Qed.

(** ** Adding a question *)

Section AddQuestion.

Lemma lookup_lower_category (c : category) :
  lookup_lower difficulty_order_lower (lower (category_name c)) = Some c.
Proof. destruct c; reflexivity. Qed.

Lemma lookup_lower_None (table : list (string * category)) (key : string) :
  lookup_lower table key = None <->
  forall (k : string) (c : category), In (k, c) table -> k <> key.
Proof.
induction table as [| [k0 c0] rest IH]; simpl.
- split; [intros _ k c [] | reflexivity].
- destruct (String.eqb k0 key) eqn:Hk.
  + apply String.eqb_eq in Hk. split; [discriminate |].
    intros H. exfalso. apply (H k0 c0); [left; reflexivity | exact Hk].
  + apply String.eqb_neq in Hk. rewrite IH. split.
    * intros H k c [Heq | Hin]; [injection Heq as <- <-; exact Hk | apply (H k c Hin)].
    * intros H k c Hin. apply (H k c). right. exact Hin.
Qed.

Lemma lookup_lower_Some (key : string) (c : category) :
  lookup_lower difficulty_order_lower key = Some c ->
  key = lower (category_name c).
Proof.
unfold difficulty_order_lower.
induction categories as [| c0 cs IH]; simpl; [discriminate |].
destruct (String.eqb (lower (category_name c0)) key) eqn:Hk.
- apply String.eqb_eq in Hk. intros H. injection H as <-. symmetry. exact Hk.
- exact IH.
Qed.

Lemma categories_complete (c : category) : In c categories.
Proof. destruct c; simpl; tauto. Qed.

Lemma store_get_put (questions : store) (question : string) (d : details) :
  store_get (store_put questions question d) question = Ok d.
Proof.
induction questions as [| [k e] rest IH]; simpl.
- rewrite String.eqb_refl. reflexivity.
- destruct (String.eqb k question) eqn:Hk; simpl; rewrite Hk; [reflexivity | exact IH].
Qed.

Lemma store_get_put_other (questions : store) (question other : string) (d : details) :
  other <> question ->
  store_get (store_put questions question d) other = store_get questions other.
Proof.
intros Hne.
induction questions as [| [k e] rest IH]; simpl.
- destruct (String.eqb question other) eqn:Ho; [| reflexivity].
  apply String.eqb_eq in Ho. congruence.
- destruct (String.eqb k question) eqn:Hk; simpl.
  + apply String.eqb_eq in Hk. subst k.
    destruct (String.eqb question other) eqn:Ho; [| reflexivity].
    apply String.eqb_eq in Ho. congruence.
  + rewrite IH. reflexivity.
Qed.

Lemma store_put_keys (questions : store) (question : string) (d : details) :
  map fst (store_put questions question d)
  = if existsb (String.eqb question) (map fst questions)
    then map fst questions
    else map fst questions ++ [question].
Proof.
induction questions as [| [k e] rest IH]; simpl; [reflexivity |].
rewrite (String.eqb_sym question k).
destruct (String.eqb k question) eqn:Hk; simpl; [reflexivity |].
rewrite IH. destruct (existsb (String.eqb question) (map fst rest)); reflexivity.
Qed.

End AddQuestion.

(** X17.  [add_question] takes the problem type whatever the case of its
    letters (the text is ASCII) and stores the name as [difficulty_order]
    writes it; a text that is the name of no problem type, case apart, ends
    the call before anything is asked or stored.  A retention that [float]
    does not read raises [ValueError], and nothing is stored either. *)
Theorem add_question_problem_type
        (request_retention : R) (now_last now_next : Z)
        (question link_in problem_type_in : string)
        (answer : retention_answer) (company_tags_in : list string)
        (questions : store) :
  is_ascii problem_type_in = true ->
  ((forall c : category, lower problem_type_in <> lower (category_name c)) ->
   add_question request_retention now_last now_next question link_in problem_type_in
                answer company_tags_in questions
   = InvalidType)
  /\ (forall c : category,
         lower problem_type_in = lower (category_name c) ->
         match answer with
         | NotANumber =>
             add_question request_retention now_last now_next question link_in
                          problem_type_in answer company_tags_in questions
             = ValueError
         | _ =>
             exists questions' : store,
               add_question request_retention now_last now_next question link_in
                            problem_type_in answer company_tags_in questions
               = Added questions'
               /\ exists d : details,
                   store_get questions' question = Ok d
                   /\ problem_type d = c
                   /\ company_tags d = company_tags_in
                   /\ link d = link_in
         end).
Proof.
intros _. split.
- intros Hnone. unfold add_question.
  destruct (lookup_lower difficulty_order_lower (lower problem_type_in))
    as [c |] eqn:Hlook; [| reflexivity].
  apply lookup_lower_Some in Hlook. contradiction (Hnone c).
- intros c Hc. unfold add_question.
  rewrite Hc, lookup_lower_category.
  destruct answer; try reflexivity;
    (eexists; split; [reflexivity |]; eexists;
     split; [apply store_get_put |]; repeat split).
Qed.

Lemma add_question_problem_type_witness :
  ((forall c : category, lower "BINARY search" <> lower (category_name c)) ->
   add_question 0.8 (clock_at 20001 9 0) (clock_at 20001 9 0)
                "Search a 2D Matrix" "https://neetcode.io" "BINARY search"
                Blank ["Google"%string] one_question
   = InvalidType)
  /\ (forall c : category,
         lower "BINARY search" = lower (category_name c) ->
         exists questions' : store,
           add_question 0.8 (clock_at 20001 9 0) (clock_at 20001 9 0)
                        "Search a 2D Matrix" "https://neetcode.io" "BINARY search"
                        Blank ["Google"%string] one_question
           = Added questions'
           /\ exists d : details,
               store_get questions' "Search a 2D Matrix" = Ok d
               /\ problem_type d = c
               /\ company_tags d = ["Google"%string]
               /\ link d = "https://neetcode.io"%string).
Proof.
apply (add_question_problem_type
         0.8 (clock_at 20001 9 0) (clock_at 20001 9 0)
         "Search a 2D Matrix" "https://neetcode.io" "BINARY search"
         Blank ["Google"%string] one_question).
reflexivity.
Defined.

Example add_question_examples :
  add_question 0.8 0 0 "Q" "" "graph" Blank [] [] = InvalidType
  /\ add_question 0.8 0 0 "Q" "" "2p" NotANumber [] [] = ValueError
  /\ lookup_lower difficulty_order_lower (lower "sLiDiNg WiNdOw") = Some SlidingWindow.
Proof. repeat split. Qed.

(** X18.  A question that [add_question] stores starts with the interval
    1, the stability [w[0]] = 2.5, the difficulty 5.0, no rating, no solving
    time, no retention rate, and as retention target the one given, or the
    default when none is given.  It takes the place of a question of the
    same name, whose history is lost, and goes last otherwise; no other
    question is touched. *)
Theorem add_question_new_item
        (request_retention : R) (now_last now_next : Z)
        (question link_in problem_type_in : string)
        (answer : retention_answer) (company_tags_in : list string)
        (questions questions' : store) :
  add_question request_retention now_last now_next question link_in problem_type_in
               answer company_tags_in questions
  = Added questions' ->
  (exists d : details,
      store_get questions' question = Ok d
      /\ interval d = 1%Z /\ stability d = 2.5 /\ difficulty d = 5.0
      /\ ratings d = [] /\ solving_time d = []
      /\ current_retention_rate d = None /\ average_time d = None
      /\ last_reviewed d = local_date now_last
      /\ next_review d = (local_date now_next + 1)%Z
      /\ retention_factor d
         = match answer with
           | Number r => r
           | _ => request_retention
           end)
  /\ (forall other : string,
         other <> question ->
         store_get questions' other = store_get questions other)
  /\ map fst questions'
     = if existsb (String.eqb question) (map fst questions)
       then map fst questions
       else map fst questions ++ [question].
Proof.
unfold add_question.
destruct (lookup_lower difficulty_order_lower (lower problem_type_in)) as [c |];
  [| discriminate].
destruct answer; intros H; try discriminate H; injection H as <-.
all: split; [eexists; split; [apply store_get_put |]; simpl;
             rewrite local_date_after_days; repeat split |].
all: split; [intros other Hne; apply store_get_put_other, Hne
            | apply store_put_keys].
Qed.

Lemma add_question_new_item_witness :
  exists questions' : store,
    add_question 0.8 (clock_at 20001 9 0) (clock_at 20001 9 0)
                 "Two Sum" "" "arrays" (Number 0.9) [] one_question
    = Added questions'
    /\ (exists d : details,
           store_get questions' "Two Sum" = Ok d
           /\ interval d = 1%Z /\ stability d = 2.5 /\ difficulty d = 5.0
           /\ ratings d = [] /\ solving_time d = []
           /\ current_retention_rate d = None /\ average_time d = None
           /\ last_reviewed d = local_date (clock_at 20001 9 0)
           /\ next_review d = (local_date (clock_at 20001 9 0) + 1)%Z
           /\ retention_factor d = 0.9)
    /\ (forall other : string,
           other <> "Two Sum"%string ->
           store_get questions' other = store_get one_question other)
    /\ map fst questions' = map fst one_question.
Proof.
eexists. split; [reflexivity |].
apply (add_question_new_item
         0.8 (clock_at 20001 9 0) (clock_at 20001 9 0)
         "Two Sum" "" "arrays" (Number 0.9) [] one_question).
reflexivity.
Defined.

(** X19.  When the two readings of the clock in [add_question] fall on the
    same local day, the question added is in the listing of that day, as
    reviewed, and is not offered for review; it is offered the day after
    (for a company, when the company is among its tags).  With a positive
    retention target it respects the data model. *)
Theorem added_question_due_tomorrow
        (request_retention : R) (now_last now_next : Z)
        (question link_in problem_type_in : string)
        (answer : retention_answer) (company_tags_in : list string)
        (questions questions' : store) (today : date) :
  add_question request_retention now_last now_next question link_in problem_type_in
               answer company_tags_in questions
  = Added questions' ->
  local_date now_last = today ->
  local_date now_next = today ->
  exists d : details,
    store_get questions' question = Ok d
    /\ (forall company : option string,
           (match company with
            | None => True
            | Some c => In c company_tags_in
            end) ->
           In (question, d) (sorted_questions company today questions')
           /\ ~ In (question, d) (unreviewed_questions company today questions')
           /\ In (question, d)
                 (unreviewed_questions company (today + 1)%Z questions'))
    /\ (0 < retention_factor d -> valid_item d).
Proof.
unfold add_question.
destruct (lookup_lower difficulty_order_lower (lower problem_type_in)) as [c |];
  [| discriminate].
intros Hadd Hlast Hnext.
assert (exists rf : R,
           questions'
           = store_put questions question
               {| link := link_in; problem_type := c;
                  company_tags := company_tags_in;
                  last_reviewed := today; next_review := (today + 1)%Z;
                  interval := 1%Z; stability := FSRS.w_ 0; difficulty := 5.0;
                  retention_factor := rf; current_retention_rate := None;
                  feynman := ""; solving_time := []; average_time := None;
                  ratings := [] |}) as [rf ->].
{ rewrite local_date_after_days, Hlast, Hnext in Hadd.
  destruct answer; try discriminate Hadd; injection Hadd as <-;
    eexists; reflexivity. }
eexists. split; [apply store_get_put |].
split.
- intros company Hcompany.
  split; [| split].
  + apply In_sorted_questions. split; [apply store_get_In, store_get_put |].
    apply selected_spec. simpl. split; [exact Hcompany | right; reflexivity].
  + unfold unreviewed_questions. rewrite filter_In. simpl.
    rewrite Z.eqb_refl. intros [_ H]. discriminate H.
  + unfold unreviewed_questions. apply filter_In. split.
    * apply In_sorted_questions. split; [apply store_get_In, store_get_put |].
      apply selected_spec. simpl. split; [exact Hcompany | left; lia].
    * simpl. apply negb_true_iff, Z.eqb_neq. lia.
- simpl. intros Hrf. unfold valid_item. simpl.
  change (FSRS.w_ 0) with 2.5.
  repeat split; try lra; lia.
Qed.

Lemma added_question_due_tomorrow_witness :
  exists (questions' : store) (d : details),
    add_question 0.8 (clock_at 20001 9 0) (clock_at 20001 9 0)
                 "Search a 2D Matrix" "" "binary search" Blank ["Google"%string]
                 one_question
    = Added questions'
    /\ store_get questions' "Search a 2D Matrix" = Ok d
    /\ (forall company : option string,
           (match company with
            | None => True
            | Some c => In c ["Google"%string]
            end) ->
           In ("Search a 2D Matrix"%string, d)
              (sorted_questions company 20001%Z questions')
           /\ ~ In ("Search a 2D Matrix"%string, d)
                   (unreviewed_questions company 20001%Z questions')
           /\ In ("Search a 2D Matrix"%string, d)
                 (unreviewed_questions company (20001 + 1)%Z questions'))
    /\ (0 < retention_factor d -> valid_item d).
Proof.
destruct (added_question_due_tomorrow
            0.8 (clock_at 20001 9 0) (clock_at 20001 9 0)
            "Search a 2D Matrix" "" "binary search" Blank ["Google"%string]
            one_question _ 20001%Z eq_refl eq_refl eq_refl) as (d & H).
do 2 eexists. split; [reflexivity | exact H].
Defined.

(** ** The company-prep mode and the days *)

Section PrepMode.

Variables (inp : review_input) (question : string) (today : date).

Lemma review_raises_when_scaled (cfg : config) (questions : store) (d : details) :
  store_get questions question = Ok d ->
  has_n (start_problem inp) = false ->
  prep_condition cfg d = Ok true ->
  review_single_question cfg inp question today questions = Raise AttributeError.
Proof.
intros Hget Hyes Hcond. unfold review_single_question. rewrite Hyes, Hget. simpl.
rewrite py_div_defined by (apply length_snoc_nonzero; lia). simpl.
rewrite (store_get_set _ _ d) by assumption. simpl.
destruct (calculate_average_time_snoc
            (solving_time d)
            (mk_time today (IZR (rated_time inp - start_time inp) / 1000000 / 60)))
  as [avg ->].
simpl. unfold update_question_metrics.
erewrite store_get_set by (eapply store_get_set, Hget). simpl.
change (prep_condition cfg d = Ok true) in Hcond.
match goal with
| |- context [prep_condition cfg ?x] =>
    change (prep_condition cfg x) with (prep_condition cfg d)
end.
rewrite Hcond. reflexivity.
Qed.

Lemma prep_condition_toggled (cfg : config) (answer : string) (d : details) :
  prep_condition (toggle_company_prep_mode cfg answer) d
  = Ok (negb (COMPANY_PREP_MODE cfg) && negb (str_in answer (company_tags d))).
Proof.
unfold toggle_company_prep_mode, prep_condition.
destruct (COMPANY_PREP_MODE cfg); reflexivity.
Qed.

End PrepMode.

(** A review looks at [config] only through the condition on the company
    tags. *)
Lemma review_single_question_same_condition
      (cfg1 cfg2 : config) (inp : review_input) (question : string) (today : date)
      (questions : store) (d : details) :
  store_get questions question = Ok d ->
  prep_condition cfg1 d = prep_condition cfg2 d ->
  review_single_question cfg1 inp question today questions
  = review_single_question cfg2 inp question today questions.
Proof.
intros Hget Hcond. unfold review_single_question.
destruct (has_n (start_problem inp)); [reflexivity |].
rewrite Hget. simpl.
rewrite py_div_defined by (apply length_snoc_nonzero; lia). simpl.
rewrite (store_get_set _ _ d) by assumption. simpl.
destruct (calculate_average_time_snoc
            (solving_time d)
            (mk_time today (IZR (rated_time inp - start_time inp) / 1000000 / 60)))
  as [avg ->].
simpl. unfold update_question_metrics.
erewrite store_get_set by (eapply store_get_set, Hget). simpl.
match goal with
| |- context [prep_condition cfg1 ?x] =>
    change (prep_condition cfg1 x) with (prep_condition cfg1 d);
    change (prep_condition cfg2 x) with (prep_condition cfg2 d)
end.
rewrite Hcond. reflexivity.
Qed.

(** X20.  [toggle_company_prep_mode] flips the mode and always leaves a
    target, so that the condition on the company tags cannot raise
    [KeyError].  Once the mode has been switched off, and for the items
    tagged with the target once it has been switched on, a review does
    exactly what it does with any configuration whose mode is off.  Once the
    mode has been switched on, the review of an item that is not tagged with
    the target raises [AttributeError]. *)
Theorem toggle_company_prep_mode_reviews
        (cfg : config) (answer : string)
        (inp : review_input) (question : string) (today : date)
        (questions : store) (d : details) :
  store_get questions question = Ok d ->
  COMPANY_PREP_MODE (toggle_company_prep_mode cfg answer)
  = negb (COMPANY_PREP_MODE cfg)
  /\ prep_condition (toggle_company_prep_mode cfg answer) d
     = Ok (negb (COMPANY_PREP_MODE cfg) && negb (str_in answer (company_tags d)))
  /\ (COMPANY_PREP_MODE cfg = true \/ str_in answer (company_tags d) = true ->
      forall cfg_off : config,
        COMPANY_PREP_MODE cfg_off = false ->
        review_single_question
          (toggle_company_prep_mode cfg answer) inp question today questions
        = review_single_question cfg_off inp question today questions)
  /\ (COMPANY_PREP_MODE cfg = false -> str_in answer (company_tags d) = false ->
      has_n (start_problem inp) = false ->
      review_single_question
        (toggle_company_prep_mode cfg answer) inp question today questions
      = Raise AttributeError).
Proof.
intros Hget.
split; [unfold toggle_company_prep_mode; destruct (COMPANY_PREP_MODE cfg); reflexivity |].
split; [apply prep_condition_toggled |].
split.
- intros Hoff cfg_off Hmode.
  apply review_single_question_same_condition with (d := d); [exact Hget |].
  rewrite prep_condition_toggled.
  unfold prep_condition at 1. rewrite Hmode.
  destruct Hoff as [-> | ->]; [reflexivity |].
  rewrite andb_false_r. reflexivity.
- intros Hmode Htag Hyes.
  apply review_raises_when_scaled with (d := d); try assumption.
  rewrite prep_condition_toggled, Hmode, Htag. reflexivity.
Qed.

Lemma toggle_company_prep_mode_reviews_witness :
  COMPANY_PREP_MODE (toggle_company_prep_mode prep_off "Google")
  = negb (COMPANY_PREP_MODE prep_off)
  /\ prep_condition (toggle_company_prep_mode prep_off "Google") two_sum
     = Ok (negb (COMPANY_PREP_MODE prep_off)
           && negb (str_in "Google" (company_tags two_sum)))
  /\ (COMPANY_PREP_MODE prep_off = true
      \/ str_in "Google" (company_tags two_sum) = true ->
      forall cfg_off : config,
        COMPANY_PREP_MODE cfg_off = false ->
        review_single_question
          (toggle_company_prep_mode prep_off "Google") (morning_review 3)
          "Two Sum" 20001%Z one_question
        = review_single_question cfg_off (morning_review 3)
                                 "Two Sum" 20001%Z one_question)
  /\ (COMPANY_PREP_MODE prep_off = false ->
      str_in "Google" (company_tags two_sum) = false ->
      has_n (start_problem (morning_review 3)) = false ->
      review_single_question
        (toggle_company_prep_mode prep_off "Google") (morning_review 3)
        "Two Sum" 20001%Z one_question
      = Raise AttributeError).
Proof.
apply (toggle_company_prep_mode_reviews
         prep_off "Google" (morning_review 3) "Two Sum" 20001%Z one_question two_sum).
reflexivity.
Defined.

(** X21.  The local day of a reading of the clock changes at 04:00 UTC:
    the reading is on the day [d] exactly from 04:00 UTC of [d] to 04:00 UTC
    of [d + 1].  Adding [days] days before taking the date adds them to the
    date. *)
Theorem local_date_bounds (now d days : Z) :
  (local_date now = d <->
   (d * microseconds_per_day + 4 * microseconds_per_hour <= now
    < (d + 1) * microseconds_per_day + 4 * microseconds_per_hour)%Z)
  /\ local_date_after now days = (local_date now + days)%Z.
Proof.
split; [| apply local_date_after_days].
unfold local_date, microseconds_per_day, microseconds_per_hour.
split.
- intros <-.
  pose proof (Z.mul_div_le (now + -4 * (3600 * 1000000))
                           (24 * (3600 * 1000000)) ltac:(lia)).
  pose proof (Z.mul_succ_div_gt (now + -4 * (3600 * 1000000))
                                (24 * (3600 * 1000000)) ltac:(lia)).
  lia.
- intros [Hlo Hhi]. symmetry. apply Z.div_unique with
    (r := (now + -4 * (3600 * 1000000) - d * (24 * (3600 * 1000000)))%Z); lia.
Qed.

(** X22.  A completed review with a rating other than 1 leaves the item
    with the stability [s] of [next_recall_stability], the interval that
    [next_interval] gives for [s] and the stored retention target, and the
    difficulty of [next_difficulty]; the next review is that many days after
    the local day of the update.  On an item that respects the data model a
    rating of 3 or more does not lower the stability. *)
Theorem review_without_override
        (cfg : config) (inp : review_input) (question : string) (today : date)
        (questions questions' : store) (d : details) :
  store_get questions question = Ok d ->
  rating_in inp <> 1%Z ->
  review_single_question cfg inp question today questions = Ok (true, questions') ->
  exists (r s : R) (n : Z) (d' : details),
    FSRS.forgetting_curve (interval d) (stability d) = Ok r
    /\ FSRS.next_recall_stability (difficulty d) (stability d) r (rating_in inp) = Ok s
    /\ FSRS.next_interval s (retention_factor d) = Ok n
    /\ store_get questions' question = Ok d'
    /\ stability d' = s
    /\ interval d' = n
    /\ difficulty d' = FSRS.next_difficulty (difficulty d) (rating_in inp)
    /\ next_review d' = (local_date (update_time inp) + n)%Z
    /\ (valid_item d -> (3 <= rating_in inp)%Z -> stability d <= stability d').
Proof.
intros Hget Hrating Hrev.
destruct (review_single_question_store _ _ _ _ _ _ _ Hget Hrev)
  as (avg & r & s & n & _ & Hr & Hs & Hn & ->).
exists r, s, n. eexists.
split; [exact Hr |]. split; [exact Hs |]. split; [exact Hn |].
split; [eapply store_get_set, Hget |].
pose proof (next_interval_ok_range _ _ _ Hn) as Hrange.
apply Z.eqb_neq in Hrating.
unfold reviewed. simpl. rewrite Hrating, local_date_after_days.
assert (Z.min n interval_cap = n) as -> by (unfold interval_cap; lia).
repeat split.
intros (Hpos & Hdiff & Hint & _) Hthree.
apply forgetting_curve_le_one in Hr as [_ Hr1]; [| assumption | lia].
rewrite next_recall_stability_value in Hs by assumption.
injection Hs as <-.
pose proof (stability_growth_nonneg (difficulty d) (stability d) r Hpos
                                    ltac:(lra) Hr1) as Hg.
assert ((rating_in inp =? 2)%Z = false) as -> by (apply Z.eqb_neq; lia).
nra.
Qed.

Lemma review_without_override_witness :
  exists (questions' : store) (r s : R) (n : Z) (d' : details),
    review_single_question prep_off (morning_review 4) "Two Sum" 20001%Z one_question
    = Ok (true, questions')
    /\ FSRS.forgetting_curve 1 2.5 = Ok r
    /\ FSRS.next_recall_stability 5.0 2.5 r 4 = Ok s
    /\ FSRS.next_interval s 0.85 = Ok n
    /\ store_get questions' "Two Sum" = Ok d'
    /\ stability d' = s
    /\ interval d' = n
    /\ difficulty d' = FSRS.next_difficulty 5.0 4
    /\ next_review d' = (local_date (update_time (morning_review 4)) + n)%Z
    /\ (valid_item two_sum -> (3 <= 4)%Z -> 2.5 <= stability d').
Proof.
destruct (review_single_question_defined
            prep_off (morning_review 4) "Two Sum" 20001%Z one_question two_sum)
  as [questions' Hrev]; try reflexivity; simpl; try lra; try lia.
destruct (review_without_override
            prep_off (morning_review 4) "Two Sum" 20001%Z one_question questions'
            two_sum eq_refl) as (r & s & n & d' & H).
- simpl. lia.
- exact Hrev.
- exists questions', r, s, n, d'. split; [exact Hrev | exact H].
Defined.
